(** * Pearl blog site: the engagement and publication routes of
      [server/api/index.js]

    A shallow embedding of the Express handlers [/create-blog], [/get-blog],
    [/like-blog] and [/isliked-by-user], together with the part of Mongoose
    they call.  A collection is the list of its documents in insertion
    order; a query that matches several documents acts on the first one.
    A handler is a promise chain over a world made of the database, the
    response slot [res] and the rejections nobody caught.

    Counters are JavaScript numbers; they are integers here, which agrees
    with the code as long as they stay below 2^53 in absolute value.  The
    model covers the runs in which the storage layer answers: the only
    rejections are those the code raises itself (dereferencing [null]) and
    the duplicate key of a unique index.

    Further on come the rest of the file's routes and helpers that can be
    read without the schemas: the listing and search routes, the token
    middleware, the connection cache, the two patterns of [/signup] with
    its checks, and [generateUsername]. *)

From Stdlib Require Import ZArith List String Ascii Bool Arith Lia Permutation.
Import ListNotations.
Open Scope string_scope.
Open Scope list_scope.

Set Implicit Arguments.

(** ** Documents *)

Definition ObjectId := nat.

(** One block of the editor's output: opaque to the server. *)
Definition Block := string.

Record Content := mkContent { blocks : list Block }.

Module User.
Record PersonalInfo := mkPersonal {
  fullname : string;
  username : string;
  profile_img : string }.

Record AccountInfo := mkAccount {
  total_posts : Z;
  total_reads : Z }.

Record t := mk {
  _id : ObjectId;
  personal_info : PersonalInfo;
  account_info : AccountInfo;
  blogs : list ObjectId }.
End User.

Module Blog.
Record Activity := mkActivity {
  total_reads : Z;
  total_likes : Z }.

Record t := mk {
  _id : ObjectId;
  blog_id : string;
  title : string;
  description : string;
  banner : string;
  content : Content;
  tags : list string;
  author : ObjectId;
  draft : bool;
  activity : Activity }.
End Blog.

Module Notification.
Record t := mk {
  _id : ObjectId;
  type : string;
  notification_for : ObjectId;
  blog : ObjectId;
  user : ObjectId }.
End Notification.

(** The three collections, and the next identifier the driver hands out. *)
Record DB := mkDB {
  users : list User.t;
  blogs : list Blog.t;
  notifications : list Notification.t;
  next_oid : ObjectId }.

(** ** Requests and responses *)

Inductive Err :=
| TypeError (message : string)
| MongoServerError (code : Z) (message : string)
| HeadersSent.

Definition err_message (e : Err) : string :=
  match e with
  | TypeError m => m
  | MongoServerError _ m => m
  | HeadersSent => "Cannot set headers after they are sent to the client"
  end.

(** What [.populate("author", "personal_info...")] leaves in a blog: the
    document and, in place of the reference, the author's personal
    information, or [null] when the reference is dangling. *)
Record PopulatedBlog := mkPopulated {
  doc : Blog.t;
  populated_author : option User.PersonalInfo }.

Inductive Body :=
| ErrorBody (error : string)
| ErrObject (err : Err)
| IdBody (id : string)
| BlogBody (blog : PopulatedBlog)
| LikedBody (likedByUser : bool)
| ExistsBody (data : option ObjectId).

Record Response := mkResponse { status : nat; body : Body }.

(** ** Promises over the world *)

Record World := mkWorld {
  db : DB;
  res : option Response;
  unhandled : list Err }.

Inductive Settled (A : Type) :=
| Fulfilled (a : A)
| Rejected (e : Err).
Arguments Fulfilled {A} a.
Arguments Rejected {A} e.

Definition Promise (A : Type) := World -> Settled A * World.

Definition resolve {A} (a : A) : Promise A := fun w => (Fulfilled a, w).

Definition throw {A} (e : Err) : Promise A := fun w => (Rejected e, w).

Definition then_ {A B} (p : Promise A) (k : A -> Promise B) : Promise B :=
  fun w =>
    match p w with
    | (Fulfilled a, w') => k a w'
    | (Rejected e, w') => (Rejected e, w')
    end.

Definition catch_ {A} (p : Promise A) (h : Err -> Promise A) : Promise A :=
  fun w =>
    match p w with
    | (Fulfilled a, w') => (Fulfilled a, w')
    | (Rejected e, w') => h e w'
    end.

(** A promise that is started and not returned: its effects happen, and a
    rejection of it reaches no handler of the enclosing chain. *)
Definition floating {A} (p : Promise A) : Promise unit :=
  fun w =>
    match p w with
    | (Fulfilled _, w') => (Fulfilled tt, w')
    | (Rejected e, w') =>
        (Fulfilled tt, mkWorld (db w') (res w') (unhandled w' ++ [e]))
    end.

Declare Scope promise_scope.
Delimit Scope promise_scope with promise.
Notation "x <- p ;; k" := (then_ p (fun x => k))
  (at level 61, p at next level, right associativity) : promise_scope.
Notation "p ;; k" := (then_ p (fun _ => k))
  (at level 61, right associativity) : promise_scope.
Open Scope promise_scope.

(** [res.status(s).json(b)] *)
Definition send (s : nat) (b : Body) : Promise unit :=
  fun w =>
    match res w with
    | None => (Fulfilled tt, mkWorld (db w) (Some (mkResponse s b)) (unhandled w))
    | Some _ => (Rejected HeadersSent, w)
    end.

Definition get_db : Promise DB := fun w => (Fulfilled (db w), w).

(** What the client and the process see of one request. *)
Record Outcome := mkOutcome {
  response : option Response;
  uncaught : list Err }.

Definition serve (handler : Promise unit) (d : DB) : Outcome * DB :=
  match handler (mkWorld d None []) with
  | (Fulfilled _, w) => (mkOutcome (res w) (unhandled w), db w)
  | (Rejected e, w) => (mkOutcome (res w) (unhandled w ++ [e]), db w)
  end.

(** ** Mongoose queries on a collection *)

Section Collection.
Variable A : Type.

(** The first document that matches, as [findOne] returns it. *)
Definition findOne (q : A -> bool) (l : list A) : option A := find q l.

(** The collection after the first match has been updated. *)
Fixpoint updateOne (q : A -> bool) (u : A -> A) (l : list A) : list A :=
  match l with
  | [] => []
  | x :: r => if q x then u x :: r else x :: updateOne q u r
  end.

(** The collection after the first match has been removed. *)
Fixpoint deleteOne (q : A -> bool) (l : list A) : list A :=
  match l with
  | [] => []
  | x :: r => if q x then r else x :: deleteOne q r
  end.

(** [findOneAndUpdate(filter, update)] with the default options: the first
    match is updated in place and the document as it was BEFORE the update
    is returned; [null] when nothing matches. *)
Definition findOneAndUpdate (q : A -> bool) (u : A -> A) (l : list A)
  : option A * list A :=
  (findOne q l, updateOne q u l).

Definition findOneAndDelete (q : A -> bool) (l : list A) : option A * list A :=
  (findOne q l, deleteOne q l).

Definition countDocuments (q : A -> bool) (l : list A) : nat :=
  List.length (filter q l).
End Collection.

(** ** The JavaScript the handlers rely on *)

(** Truthiness of an optional boolean field of the request body: an omitted
    field is [undefined]. *)
Definition truthy (flag : option bool) : bool :=
  match flag with
  | Some b => b
  | None => false
  end.

(** Truthiness of an optional string: [undefined] and [""] are falsy. *)
Definition truthy_string (s : option string) : option string :=
  match s with
  | Some EmptyString => None
  | Some id => Some id
  | None => None
  end.

(** [x == "edit"] for a field that is a string or omitted. *)
Definition loosely_equals (x : option string) (lit : string) : bool :=
  match x with
  | Some s => String.eqb s lit
  | None => false
  end.

(** [!s.length] *)
Definition no_length (s : string) : bool := Nat.eqb (String.length s) 0.

Definition between (lo hi : nat) (c : ascii) : bool :=
  Nat.leb lo (nat_of_ascii c) && Nat.leb (nat_of_ascii c) hi.

Definition is_alnum (c : ascii) : bool :=
  between 48 57 c || between 65 90 c || between 97 122 c.

(** The white space [\s] matches among the first 128 characters. *)
Definition is_space (c : ascii) : bool :=
  between 9 13 c || Nat.eqb (nat_of_ascii c) 32.

Fixpoint map_string (f : ascii -> ascii) (s : string) : string :=
  match s with
  | EmptyString => EmptyString
  | String c r => String (f c) (map_string f r)
  end.

(** The capital letters among the code units below 256: A to Z, and the
    Latin-1 letters from 192 to 222 without the sign at 215. *)
Definition is_capital (c : ascii) : bool :=
  between 65 90 c
  || (between 192 222 c && negb (Nat.eqb (nat_of_ascii c) 215)).

(** [t.toLowerCase()], exact on the code units below 256: a capital letter
    moves 32 up, everything else stays. *)
Definition toLowerCase (s : string) : string :=
  map_string
    (fun c => if is_capital c then ascii_of_nat (nat_of_ascii c + 32) else c)
    s.

(** [.replace(/[^a-zA-Z0-9]/g, " ")] *)
Definition blank_non_alnum (s : string) : string :=
  map_string (fun c => if is_alnum c then c else " "%char) s.

(** [.replace(/\s+/g, "-")]: [in_run] tells that the previous character was
    white space, whose run has its hyphen already. *)
Fixpoint hyphenate (in_run : bool) (s : string) : string :=
  match s with
  | EmptyString => EmptyString
  | String c r =>
      if is_space c then
        if in_run then hyphenate true r else String "-"%char (hyphenate true r)
      else String c (hyphenate false r)
  end.

Fixpoint dropWhile (p : ascii -> bool) (l : list ascii) : list ascii :=
  match l with
  | [] => []
  | c :: r => if p c then dropWhile p r else l
  end.

(** [.trim()] *)
Definition trim (s : string) : string :=
  string_of_list_ascii
    (rev (dropWhile is_space (rev (dropWhile is_space (list_ascii_of_string s))))).

Definition slug (title : string) : string :=
  trim (hyphenate false (blank_non_alnum title)).

(** ** The models' queries as promises *)

(** The filters [{ blog_id }] and [{ _id }]. *)
Definition has_blog_id (blogId : string) (b : Blog.t) : bool :=
  String.eqb (Blog.blog_id b) blogId.

Definition has_blog_oid (id : ObjectId) (b : Blog.t) : bool :=
  Nat.eqb (Blog._id b) id.

Definition has_user_oid (id : ObjectId) (u : User.t) : bool :=
  Nat.eqb (User._id u) id.

Definition query {A} (f : DB -> A * DB) : Promise A :=
  fun w =>
    let (a, d) := f (db w) in
    (Fulfilled a, mkWorld d (res w) (unhandled w)).

Definition with_blogs (d : DB) (l : list Blog.t) : DB :=
  mkDB (users d) l (notifications d) (next_oid d).

Definition with_users (d : DB) (l : list User.t) : DB :=
  mkDB l (blogs d) (notifications d) (next_oid d).

Definition with_notifications (d : DB) (l : list Notification.t) : DB :=
  mkDB (users d) (blogs d) l (next_oid d).

Definition Blog_findOneAndUpdate (q : Blog.t -> bool) (u : Blog.t -> Blog.t)
  : Promise (option Blog.t) :=
  query (fun d =>
    let (old, l) := findOneAndUpdate q u (blogs d) in (old, with_blogs d l)).

Definition User_findOneAndUpdate (q : User.t -> bool) (u : User.t -> User.t)
  : Promise (option User.t) :=
  query (fun d =>
    let (old, l) := findOneAndUpdate q u (users d) in (old, with_users d l)).

(** [.populate("author", ...)] on the result of a blog query. *)
Definition populate (d : DB) (b : Blog.t) : PopulatedBlog :=
  mkPopulated b
    (option_map User.personal_info
       (findOne (has_user_oid (Blog.author b)) (users d))).

Definition Blog_findOneAndUpdate_populate
  (q : Blog.t -> bool) (u : Blog.t -> Blog.t) : Promise (option PopulatedBlog) :=
  old <- Blog_findOneAndUpdate q u ;;
  d <- get_db ;;
  resolve (option_map (populate d) old).

(** Modelled from the spec: the Blog schema (Schema/Blog.js) is not among the
    sources.  The spec gives [blog_id] as the unique identity of a blog, a
    collision of which surfaces as a uniqueness failure of the store, and
    counters that accumulate from nothing: [save] rejects a document whose
    [blog_id] is taken with the duplicate-key error 11000, and the new
    document's activity counters start at 0. *)
Definition Blog_save
  (blog_id title description banner : string) (content : Content)
  (tags : list string) (author : ObjectId) (draft : bool) : Promise Blog.t :=
  fun w =>
    let d := db w in
    if existsb (has_blog_id blog_id) (blogs d) then
      (Rejected (MongoServerError 11000%Z "E11000 duplicate key error"), w)
    else
      let blog := Blog.mk (next_oid d) blog_id title description banner content
                    tags author draft (Blog.mkActivity 0 0) in
      (Fulfilled blog,
       mkWorld (mkDB (users d) (blogs d ++ [blog]) (notifications d) (S (next_oid d)))
         (res w) (unhandled w)).

(** Modelled from the spec: the Notification schema (Schema/Notification.js)
    is not among the sources.  The spec records that no uniqueness constraint
    is declared on (user, blog, type): [save] inserts whatever it is given. *)
Definition Notification_save
  (type : string) (notification_for blog user : ObjectId)
  : Promise Notification.t :=
  query (fun d =>
    let n := Notification.mk (next_oid d) type notification_for blog user in
    (n, mkDB (users d) (blogs d) (notifications d ++ [n]) (S (next_oid d)))).

Definition Notification_findOneAndDelete (q : Notification.t -> bool)
  : Promise (option Notification.t) :=
  query (fun d =>
    let (old, l) := findOneAndDelete q (notifications d) in
    (old, with_notifications d l)).

(** [Model.exists(filter)]: the [_id] of a match, or [null]. *)
Definition Notification_exists (q : Notification.t -> bool)
  : Promise (option ObjectId) :=
  query (fun d => (option_map Notification._id (findOne q (notifications d)), d)).

(** The filter [{ user, blog, type: "like" }] of both like routes. *)
Definition is_like_of (user blog : ObjectId) (n : Notification.t) : bool :=
  Nat.eqb (Notification.user n) user
  && Nat.eqb (Notification.blog n) blog
  && String.eqb (Notification.type n) "like".

(** ** The routes *)

(** The body of a request is what the client sent: strings and arrays as
    they are, optional fields as options.  [req.user] is the identity the
    token middleware resolved. *)

Module CreateBlog.
Record req := mk {
  title : string;
  banner : string;
  content : Content;
  tags : list string;
  description : string;
  draft : option bool;
  blogId : option string }.
End CreateBlog.

Module GetBlog.
Record req := mk {
  blogId : string;
  draft : option bool;
  mode : option string }.
End GetBlog.

Module LikeBlog.
Record req := mk {
  _id : ObjectId;
  isLikedByUser : bool }.
End LikeBlog.

(** The checks at the head of [/create-blog] (lines 236 to 254): the message
    of the first one that fails. *)
Definition create_blog_rejects (r : CreateBlog.req) : option string :=
  if no_length (CreateBlog.title r) then Some "you must provide blog title."
  else if truthy (CreateBlog.draft r) then
    if no_length (CreateBlog.description r) then
      Some "you must provide blog description."
    else if no_length (CreateBlog.banner r) then
      Some "you must provide blog banner."
    else if Nat.eqb (List.length (blocks (CreateBlog.content r))) 0 then
      Some "you must provide blog content"
    else if Nat.eqb (List.length (CreateBlog.tags r)) 0 then
      Some "you must provide tags"
    else None
  else None.

Definition set_fields (title description banner : string) (content : Content)
  (tags : list string) (draft : bool) (b : Blog.t) : Blog.t :=
  Blog.mk (Blog._id b) (Blog.blog_id b) title description banner content tags
    (Blog.author b) draft (Blog.activity b).

(** [{ $inc: { "account_info.total_posts": n }, $push: { blogs: id } }] *)
Definition inc_posts_push_blog (n : Z) (id : ObjectId) (u : User.t) : User.t :=
  User.mk (User._id u) (User.personal_info u)
    (User.mkAccount (User.total_posts (User.account_info u) + n)
       (User.total_reads (User.account_info u)))
    (User.blogs u ++ [id]).

(** [POST /create-blog] for the caller [authorId]; [nanoid] is the suffix
    that [nanoid()] draws for this request. *)
Definition create_blog (authorId : ObjectId) (nanoid : string)
  (r : CreateBlog.req) : Promise unit :=
  match create_blog_rejects r with
  | Some msg => send 403 (ErrorBody msg)
  | None =>
      let title := CreateBlog.title r in
      let description := CreateBlog.description r in
      let banner := CreateBlog.banner r in
      let content := CreateBlog.content r in
      let draft := CreateBlog.draft r in
      let tags := map toLowerCase (CreateBlog.tags r) in
      match truthy_string (CreateBlog.blogId r) with
      | Some blogId =>
          catch_
            (Blog_findOneAndUpdate (has_blog_id blogId)
               (set_fields title description banner content tags (truthy draft)) ;;
             send 200 (IdBody blogId))
            (fun err => send 500 (ErrorBody (err_message err)))
      | None =>
          let blog_id := (slug title ++ nanoid)%string in
          catch_
            (blog <- Blog_save blog_id title description banner content tags
                       authorId (truthy draft) ;;
             let increasePostCount := if truthy draft then 0%Z else 1%Z in
             floating
               (catch_
                  (User_findOneAndUpdate (has_user_oid authorId)
                     (inc_posts_push_blog increasePostCount (Blog._id blog)) ;;
                   send 200 (IdBody (Blog.blog_id blog)))
                  (fun err =>
                     send 500 (ErrorBody "failed to upldate total post number"))))
            (fun err => send 500 (ErrorBody (err_message err)))
      end
  end.

(** [{ $inc: { "activity.total_reads": n } }] *)
Definition inc_blog_reads (n : Z) (b : Blog.t) : Blog.t :=
  Blog.mk (Blog._id b) (Blog.blog_id b) (Blog.title b) (Blog.description b)
    (Blog.banner b) (Blog.content b) (Blog.tags b) (Blog.author b) (Blog.draft b)
    (Blog.mkActivity (Blog.total_reads (Blog.activity b) + n)
       (Blog.total_likes (Blog.activity b))).

(** [{ $inc: { "activity.total_likes": n } }] *)
Definition inc_blog_likes (n : Z) (b : Blog.t) : Blog.t :=
  Blog.mk (Blog._id b) (Blog.blog_id b) (Blog.title b) (Blog.description b)
    (Blog.banner b) (Blog.content b) (Blog.tags b) (Blog.author b) (Blog.draft b)
    (Blog.mkActivity (Blog.total_reads (Blog.activity b))
       (Blog.total_likes (Blog.activity b) + n)).

(** [{ $inc: { "account_info.total_reads": n } }] *)
Definition inc_user_reads (n : Z) (u : User.t) : User.t :=
  User.mk (User._id u) (User.personal_info u)
    (User.mkAccount (User.total_posts (User.account_info u))
       (User.total_reads (User.account_info u) + n))
    (User.blogs u).

Definition null_deref (property : string) : Err :=
  TypeError ("Cannot read properties of null (reading '" ++ property ++ "')").

Definition has_username (name : string) (u : User.t) : bool :=
  String.eqb (User.username (User.personal_info u)) name.

(** [POST /get-blog] *)
Definition get_blog (r : GetBlog.req) : Promise unit :=
  let incrementalValue :=
    if loosely_equals (GetBlog.mode r) "edit" then 0%Z else 1%Z in
  catch_
    (found <- Blog_findOneAndUpdate_populate
                (has_blog_id (GetBlog.blogId r))
                (inc_blog_reads incrementalValue) ;;
     match found with
     | None => throw (null_deref "author")
     | Some blog =>
         match populated_author blog with
         | None => throw (null_deref "personal_info")
         | Some author =>
             floating
               (catch_
                  (User_findOneAndUpdate (has_username (User.username author))
                     (inc_user_reads incrementalValue) ;;
                   resolve tt)
                  (fun err => resolve tt)) ;;
             if Blog.draft (doc blog) && negb (truthy (GetBlog.draft r)) then
               send 500 (ErrorBody "you can not access draft blogs.")
             else send 200 (BlogBody blog)
         end
     end)
    (fun err => send 500 (ErrObject err)).

(** [!isLikedByUser ? 1 : -1] *)
Definition like_increment (r : LikeBlog.req) : Z :=
  if negb (LikeBlog.isLikedByUser r) then 1%Z else (-1)%Z.

(** The callback of [/like-blog] (lines 479 to 500), given what the counter
    update found. *)
Definition like_blog_then (user : ObjectId) (r : LikeBlog.req)
  (found : option Blog.t) : Promise unit :=
  let _id := LikeBlog._id r in
  if Bool.eqb (LikeBlog.isLikedByUser r) true then
    match found with
    | None => throw (null_deref "author")
    | Some blog =>
        floating
          (Notification_save "like" (Blog.author blog) _id user ;;
           send 200 (LikedBody true))
    end
  else
    floating
      (catch_
         (Notification_findOneAndDelete (is_like_of user _id) ;;
          send 200 (LikedBody false))
         (fun err => send 500 (ErrorBody (err_message err)))).

(** [POST /like-blog] for the caller [user]. *)
Definition like_blog (user : ObjectId) (r : LikeBlog.req) : Promise unit :=
  found <- Blog_findOneAndUpdate (has_blog_oid (LikeBlog._id r))
             (inc_blog_likes (like_increment r)) ;;
  like_blog_then user r found.

(** [POST /isliked-by-user] for the caller [user_id]. *)
Definition isliked_by_user (user_id _id : ObjectId) : Promise unit :=
  catch_
    (data <- Notification_exists (is_like_of user_id _id) ;;
     send 200 (ExistsBody data))
    (fun err => send 500 (ErrorBody (err_message err))).

(** ** Observations on the store and on the answers *)

(** The usernames of the user collection are pairwise distinct. *)
Definition unique_usernames (d : DB) : Prop :=
  NoDup (map (fun u => User.username (User.personal_info u)) (users d)).

(** The response that refuses a draft to a reader. *)
Definition access_denied : Response :=
  mkResponse 500 (ErrorBody "you can not access draft blogs.").

(** The number of like entries of a user on a blog. *)
Definition like_entries (user blog : ObjectId) (d : DB) : nat :=
  countDocuments (is_like_of user blog) (notifications d).

(** The number of blogs of an author that are not drafts. *)
Definition published_by (author : ObjectId) (d : DB) : Z :=
  Z.of_nat
    (countDocuments
       (fun b => Nat.eqb (Blog.author b) author && negb (Blog.draft b))
       (blogs d)).

Definition delta_of_mode (mode : option string) : Z :=
  if loosely_equals mode "edit" then 0%Z else 1%Z.

(** How a client reads the answer of [/isliked-by-user]: an object with an
    [_id] is truthy, [null] is falsy. *)
Definition answers_liked (o : Outcome) : option bool :=
  match response o with
  | Some (mkResponse 200 (ExistsBody (Some _))) => Some true
  | Some (mkResponse 200 (ExistsBody None)) => Some false
  | _ => None
  end.

Definition likes_of (id : ObjectId) (d : DB) : option Z :=
  option_map (fun b => Blog.total_likes (Blog.activity b))
    (findOne (has_blog_oid id) (blogs d)).

Definition posts_of (id : ObjectId) (d : DB) : option Z :=
  option_map (fun u => User.total_posts (User.account_info u))
    (findOne (has_user_oid id) (users d)).

(** ** A small database to run the routes on *)

Definition alice : User.t :=
  User.mk 1 (User.mkPersonal "Alice" "alice" "a.png") (User.mkAccount 1 7) [10].

Definition bob : User.t :=
  User.mk 2 (User.mkPersonal "Bob" "bob" "b.png") (User.mkAccount 0 0) [11].

(** A published post of Alice with five likes. *)
Definition post10 : Blog.t :=
  Blog.mk 10 "Hello-Worldx1" "Hello World" "greeting" "banner.png"
    (mkContent ["paragraph"]) ["intro"] 1 false (Blog.mkActivity 7 5).

(** A draft of Bob. *)
Definition draft11 : Blog.t :=
  Blog.mk 11 "Notesy2" "Notes" "wip" "n.png"
    (mkContent ["paragraph"]) ["misc"] 2 true (Blog.mkActivity 0 0).

Definition sample_db : DB := mkDB [alice; bob] [post10; draft11] [] 12.

(** A post sent for publication with nothing but its title. *)
Definition bare_post : CreateBlog.req :=
  CreateBlog.mk "Hello" "" (mkContent []) [] "" (Some false) None.

(** The same, saved as a draft. *)
Definition bare_draft : CreateBlog.req :=
  CreateBlog.mk "Hello" "" (mkContent []) [] "" (Some true) None.

(** Bob's draft, complete, sent again with the draft flag off. *)
Definition publish_draft11 : CreateBlog.req :=
  CreateBlog.mk "Notes" "n.png" (mkContent ["paragraph"]) ["misc"] "wip"
    (Some false) (Some "Notesy2").

(** A complete post that Bob publishes at once. *)
Definition full_post : CreateBlog.req :=
  CreateBlog.mk "Rocq Tips" "t.png" (mkContent ["paragraph"]) ["Proofs"]
    "tips" None None.

(** A store in which two users carry the same username, the second of
    whom wrote a post. *)
Definition namesake : User.t :=
  User.mk 3 (User.mkPersonal "Alice B" "alice" "ab.png") (User.mkAccount 1 0) [13].

Definition post13 : Blog.t :=
  Blog.mk 13 "Againq7" "Again" "second" "s.png"
    (mkContent ["paragraph"]) ["misc"] 3 false (Blog.mkActivity 0 0).

Definition namesake_db : DB := mkDB [alice; namesake] [post13] [] 14.

(** ** Requests in flight

    The store applies each call atomically, and between two calls of one
    request the calls of other requests may take place.  A [/like-blog]
    request makes two calls: the counter update, then the write to the
    ledger. *)

Inductive LikeTask :=
| Received (user : ObjectId) (r : LikeBlog.req)
| Counted (user : ObjectId) (r : LikeBlog.req) (found : option Blog.t)
| Done (user : ObjectId) (r : LikeBlog.req) (o : Outcome).

(** The next storage call of a request. *)
Definition like_step (t : LikeTask) (d : DB) : LikeTask * DB :=
  match t with
  | Received user r =>
      match Blog_findOneAndUpdate (has_blog_oid (LikeBlog._id r))
              (inc_blog_likes (like_increment r)) (mkWorld d None []) with
      | (Fulfilled found, w) => (Counted user r found, db w)
      | (Rejected e, w) => (Done user r (mkOutcome None [e]), db w)
      end
  | Counted user r found =>
      let (o, d') := serve (like_blog_then user r found) d in
      (Done user r o, d')
  | Done user r o => (t, d)
  end.

(** The request at position [i] makes its next call. *)
Fixpoint step_nth (i : nat) (ts : list LikeTask) (d : DB) {struct ts}
  : list LikeTask * DB :=
  match ts with
  | [] => ([], d)
  | t :: rest =>
      match i with
      | 0 => let (t', d') := like_step t d in (t' :: rest, d')
      | S j => let (rest', d') := step_nth j rest d in (t :: rest', d')
      end
  end.

(** The requests make their calls in the order the schedule gives. *)
Fixpoint run (schedule : list nat) (ts : list LikeTask) (d : DB)
  : list LikeTask * DB :=
  match schedule with
  | [] => (ts, d)
  | i :: later => let (ts', d') := step_nth i ts d in run later ts' d'
  end.

Definition is_done (t : LikeTask) : Prop :=
  match t with
  | Done _ _ _ => True
  | _ => False
  end.

(** What a request has added to the like counter of the blog [id] so far. *)
Definition applied (id : ObjectId) (t : LikeTask) : Z :=
  match t with
  | Received _ _ => 0%Z
  | Counted _ r _ | Done _ r _ =>
      if Nat.eqb (LikeBlog._id r) id then like_increment r else 0%Z
  end.

Fixpoint applied_all (id : ObjectId) (ts : list LikeTask) : Z :=
  match ts with
  | [] => 0%Z
  | t :: rest => (applied id t + applied_all id rest)%Z
  end.

(** One like of the blog [id] by each of the users, all just received. *)
Definition likes_from (users : list ObjectId) (id : ObjectId) : list LikeTask :=
  map (fun u => Received u (LikeBlog.mk id true)) users.

(** The request a task serves. *)
Definition request_of (t : LikeTask) : ObjectId * LikeBlog.req :=
  match t with
  | Received u r | Counted u r _ | Done u r _ => (u, r)
  end.

(** What the requests add to the like counter of the blog [id] once each
    has made its counter update. *)
Fixpoint requested (id : ObjectId) (rs : list (ObjectId * LikeBlog.req)) : Z :=
  match rs with
  | [] => 0%Z
  | (_, r) :: rest =>
      ((if Nat.eqb (LikeBlog._id r) id then like_increment r else 0) +
       requested id rest)%Z
  end.

(** The storage calls a request has still to make. *)
Definition remaining (t : LikeTask) : nat :=
  match t with
  | Received _ _ => 2
  | Counted _ _ _ => 1
  | Done _ _ _ => 0
  end.

Definition remaining_at (j : nat) (ts : list LikeTask) : nat :=
  match nth_error ts j with
  | Some t => remaining t
  | None => 0
  end.

(** ** Shapes of strings *)

Definition is_hyphen (c : ascii) : bool := Nat.eqb (nat_of_ascii c) 45.

(** A letter, a digit or a hyphen. *)
Definition url_safe (c : ascii) : bool := is_alnum c || is_hyphen c.

(** No two hyphens in a row; [after_hyphen] tells that the character before
    the string was one. *)
Fixpoint no_hyphen_pair (after_hyphen : bool) (s : string) : bool :=
  match s with
  | EmptyString => true
  | String c r =>
      if is_hyphen c then negb after_hyphen && no_hyphen_pair true r
      else no_hyphen_pair false r
  end.

(** ** The router

    The four routes above behind one entry point, each request with what the
    token middleware and [nanoid()] hand to its handler. *)

Inductive Request :=
| PostCreateBlog (authorId : ObjectId) (nanoid : string) (body : CreateBlog.req)
| PostGetBlog (body : GetBlog.req)
| PostLikeBlog (user : ObjectId) (body : LikeBlog.req)
| PostIsLikedByUser (user _id : ObjectId).

Definition route (rq : Request) : Promise unit :=
  match rq with
  | PostCreateBlog authorId nanoid body => create_blog authorId nanoid body
  | PostGetBlog body => get_blog body
  | PostLikeBlog user body => like_blog user body
  | PostIsLikedByUser user _id => isliked_by_user user _id
  end.

(** The store after the requests have been served one after the other. *)
Fixpoint serve_all (rqs : list Request) (d : DB) : DB :=
  match rqs with
  | [] => d
  | rq :: later => serve_all later (snd (serve (route rq) d))
  end.

(** What one request can do to the store. *)
Inductive effect (d : DB) : DB -> Prop :=
| effect_none : effect d d
| effect_view_blog (blogId : string) (mode : option string) :
    effect d
      (mkDB (users d)
         (updateOne (has_blog_id blogId) (inc_blog_reads (delta_of_mode mode))
            (blogs d))
         (notifications d) (next_oid d))
| effect_view (blogId : string) (mode : option string) (name : string) :
    effect d
      (mkDB
         (updateOne (has_username name) (inc_user_reads (delta_of_mode mode))
            (users d))
         (updateOne (has_blog_id blogId) (inc_blog_reads (delta_of_mode mode))
            (blogs d))
         (notifications d) (next_oid d))
| effect_like (user id : ObjectId) (blog : Blog.t) :
    findOne (has_blog_oid id) (blogs d) = Some blog ->
    effect d
      (mkDB (users d)
         (updateOne (has_blog_oid id) (inc_blog_likes (-1)) (blogs d))
         (notifications d
            ++ [Notification.mk (next_oid d) "like" (Blog.author blog) id user])
         (S (next_oid d)))
| effect_unlike (user id : ObjectId) :
    effect d
      (mkDB (users d)
         (updateOne (has_blog_oid id) (inc_blog_likes 1) (blogs d))
         (deleteOne (is_like_of user id) (notifications d))
         (next_oid d))
| effect_update (blogId title description banner : string) (content : Content)
    (tags : list string) (draft : bool) :
    effect d
      (mkDB (users d)
         (updateOne (has_blog_id blogId)
            (set_fields title description banner content
               (map toLowerCase tags) draft)
            (blogs d))
         (notifications d) (next_oid d))
| effect_create (authorId : ObjectId) (blog_id title description banner : string)
    (content : Content) (tags : list string) (draft : bool) (k : Z) :
    existsb (has_blog_id blog_id) (blogs d) = false ->
    effect d
      (mkDB
         (updateOne (has_user_oid authorId)
            (inc_posts_push_blog k (next_oid d)) (users d))
         (blogs d ++
          [Blog.mk (next_oid d) blog_id title description banner content
             (map toLowerCase tags) authorId draft (Blog.mkActivity 0 0)])
         (notifications d) (S (next_oid d))).

(** ** Conditions the store keeps *)

(** Every document identifier is below the next one the driver hands out,
    and no two blogs, and no two notifications, share one. *)
Definition object_ids_fresh (d : DB) : Prop :=
  Forall (fun i => i < next_oid d) (map Blog._id (blogs d))
  /\ Forall (fun i => i < next_oid d) (map Notification._id (notifications d))
  /\ NoDup (map Blog._id (blogs d))
  /\ NoDup (map Notification._id (notifications d)).

Definition unique_blog_ids (d : DB) : Prop :=
  NoDup (map Blog.blog_id (blogs d)).

Fixpoint string_forallb (p : ascii -> bool) (s : string) : bool :=
  match s with
  | EmptyString => true
  | String c r => p c && string_forallb p r
  end.

(** No stored tag has a letter from A to Z. *)
Definition tags_lowercase (d : DB) : Prop :=
  Forall
    (fun b =>
       Forall (fun t => string_forallb (fun c => negb (between 65 90 c)) t = true)
         (Blog.tags b))
    (blogs d).

(** A blog as a notification or a user's list refers to it: its identifier
    and its author. *)
Definition blog_keys (d : DB) : list (ObjectId * ObjectId) :=
  map (fun b => (Blog._id b, Blog.author b)) (blogs d).

(** Every notification is about a blog of the store and is addressed to the
    author of that blog. *)
Definition notifications_addressed (d : DB) : Prop :=
  Forall
    (fun n =>
       In (Notification.blog n, Notification.notification_for n) (blog_keys d))
    (notifications d).

(** Every entry of a user's [blogs] list is a blog of the store written by
    that user. *)
Definition blog_lists_owned (d : DB) : Prop :=
  Forall
    (fun u => Forall (fun i => In (i, User._id u) (blog_keys d)) (User.blogs u))
    (users d).

(** What stays of a blog through every request, and where its read counter
    can go. *)
Definition same_blog_later (b b' : Blog.t) : Prop :=
  Blog._id b' = Blog._id b
  /\ Blog.blog_id b' = Blog.blog_id b
  /\ Blog.author b' = Blog.author b
  /\ (Blog.total_reads (Blog.activity b) <= Blog.total_reads (Blog.activity b'))%Z.

(** A run of requests on the sample database. *)
Definition sample_requests : list Request :=
  [ PostGetBlog (GetBlog.mk "Hello-Worldx1" None None);
    PostLikeBlog 2 (LikeBlog.mk 10 true);
    PostCreateBlog 2 "k9" full_post;
    PostCreateBlog 1 "z3" publish_draft11;
    PostIsLikedByUser 2 10;
    PostLikeBlog 2 (LikeBlog.mk 10 false);
    PostGetBlog (GetBlog.mk "Notesy2" (Some true) (Some "edit")) ].

(** ** The listing routes

    [/latest-blogs], [/all-latest-blogs-count], [/trending-blogs],
    [/search-blogs] and [/search-blogs-count] read the blog collection and
    write nothing.  The store keeps no [publishedAt] here, so the orders
    the queries ask for are parameters; so are the regular expression
    [new RegExp(query, "i")] builds and the rejection the store answers a
    negative [skip] with. *)

Module Card.
Record t := mk {
  blog_id : string;
  title : string;
  description : string;
  banner : string;
  activity : Blog.Activity;
  tags : list string;
  author : option User.PersonalInfo }.
End Card.

Module Trend.
Record t := mk {
  blog_id : string;
  title : string;
  author : option User.PersonalInfo }.
End Trend.

Inductive ListingBody :=
| BlogsBody (blogs : list Card.t)
| TrendingBody (blogs : list Trend.t)
| TotalDocsBody (totalDocs : nat)
| ListingError (error : string)
| SomethingBroke.

Record ListingResponse := mkListing {
  listing_status : nat;
  listing_body : ListingBody }.

Module SearchBlogs.
Record req := mk {
  tag : option string;
  page : Z;
  query : option string;
  author : option ObjectId;
  limit : option nat;
  eliminateBlog : option string }.
End SearchBlogs.

Module SearchBlogsCount.
Record req := mk {
  tag : option string;
  query : option string;
  author : option ObjectId }.
End SearchBlogsCount.

(** [.select("blog_id title description banner activity tags publishedAt
    -_id")] on a blog with its author populated. *)
Definition card (d : DB) (b : Blog.t) : Card.t :=
  Card.mk (Blog.blog_id b) (Blog.title b) (Blog.description b) (Blog.banner b)
    (Blog.activity b) (Blog.tags b) (populated_author (populate d b)).

(** [.select("blog_id title publishedAt -_id")] *)
Definition trend (d : DB) (b : Blog.t) : Trend.t :=
  Trend.mk (Blog.blog_id b) (Blog.title b) (populated_author (populate d b)).

(** [{ draft: false }] *)
Definition is_published (b : Blog.t) : bool := negb (Blog.draft b).

(** [{ tags: tag }]: the array holds the tag. *)
Definition tagged (tag : string) (b : Blog.t) : bool :=
  existsb (String.eqb tag) (Blog.tags b).

(** [{ blog_id: { $ne: eliminateBlog } }]; an omitted [eliminateBlog]
    excludes nothing. *)
Definition not_eliminated (eliminateBlog : option string) (b : Blog.t) : bool :=
  match eliminateBlog with
  | Some id => negb (has_blog_id id b)
  | None => true
  end.

(** What [Blog.find] or [Blog.countDocuments] is given: a filter, or
    [undefined], which matches every document; or nothing at all, when
    building the regular expression threw. *)
Inductive FindQuery :=
| Matching (q : Blog.t -> bool)
| Undefined
| Threw.

Definition matches (fq : FindQuery) (l : list Blog.t) : list Blog.t :=
  match fq with
  | Matching q => filter q l
  | _ => l
  end.

(** [limit ? (maxLimit = limit) : (maxLimit = 3)] *)
Definition maxLimit_of (limit : option nat) : nat :=
  match limit with
  | Some (S n) => S n
  | _ => 3
  end.

Section Listing.
(** [.sort({ publishedAt: -1 })] *)
Variable by_publishedAt : list Blog.t -> list Blog.t.
(** [.sort({ "activity.total_read": -1, "activity.total_like": -1,
    publishedAt: -1 })] *)
Variable by_trend : list Blog.t -> list Blog.t.
(** [new RegExp(query, "i")] as a test on titles; [None] when the pattern is
    not a regular expression and the constructor throws. *)
Variable title_regexp : string -> option (string -> bool).
(** The rejection of a query whose [skip] is negative. *)
Variable skip_error : Err.

(** [.skip(n).limit(m)] on the sorted matches; a limit of 0 is no limit. *)
Definition skip_limit (A : Type) (n : Z) (m : nat) (l : list A)
  : Settled (list A) :=
  if (n <? 0)%Z then Rejected skip_error
  else Fulfilled
         (match m with
          | 0 => skipn (Z.to_nat n) l
          | _ => firstn m (skipn (Z.to_nat n) l)
          end).

(** [POST /latest-blogs] *)
Definition latest_blogs (page : Z) (d : DB) : ListingResponse :=
  let maxLimit := 3 in
  match skip_limit ((page - 1) * Z.of_nat maxLimit) maxLimit
          (by_publishedAt (filter is_published (blogs d))) with
  | Fulfilled found => mkListing 200 (BlogsBody (map (card d) found))
  | Rejected err => mkListing 500 (ListingError (err_message err))
  end.

(** [POST /all-latest-blogs-count] *)
Definition all_latest_blogs_count (d : DB) : ListingResponse :=
  mkListing 200 (TotalDocsBody (countDocuments is_published (blogs d))).

(** [GET /trending-blogs] *)
Definition trending_blogs (d : DB) : ListingResponse :=
  mkListing 200
    (TrendingBody
       (map (trend d) (firstn 5 (by_trend (filter is_published (blogs d)))))).

(** The [findQuery] of [/search-blogs] (lines 383 to 394). *)
Definition search_findQuery (r : SearchBlogs.req) : FindQuery :=
  match truthy_string (SearchBlogs.tag r) with
  | Some tag =>
      Matching (fun b =>
        tagged tag b && is_published b
        && not_eliminated (SearchBlogs.eliminateBlog r) b)
  | None =>
      match truthy_string (SearchBlogs.query r) with
      | Some query =>
          match title_regexp query with
          | Some test => Matching (fun b => test (Blog.title b) && is_published b)
          | None => Threw
          end
      | None =>
          match SearchBlogs.author r with
          | Some author =>
              Matching (fun b => Nat.eqb (Blog.author b) author && is_published b)
          | None => Undefined
          end
      end
  end.

(** [POST /search-blogs] *)
Definition search_blogs (r : SearchBlogs.req) (d : DB) : ListingResponse :=
  match search_findQuery r with
  | Threw => mkListing 500 SomethingBroke
  | findQuery =>
      let maxLimit := maxLimit_of (SearchBlogs.limit r) in
      match skip_limit ((SearchBlogs.page r - 1) * Z.of_nat maxLimit) maxLimit
              (by_publishedAt (matches findQuery (blogs d))) with
      | Fulfilled found => mkListing 200 (BlogsBody (map (card d) found))
      | Rejected err => mkListing 500 (ListingError (err_message err))
      end
  end.

(** The [findQuery] of [/search-blogs-count] (lines 416 to 423). *)
Definition count_findQuery (r : SearchBlogsCount.req) : FindQuery :=
  match truthy_string (SearchBlogsCount.tag r) with
  | Some tag => Matching (fun b => tagged tag b && is_published b)
  | None =>
      match truthy_string (SearchBlogsCount.query r) with
      | Some query =>
          match title_regexp query with
          | Some test => Matching (fun b => test (Blog.title b) && is_published b)
          | None => Threw
          end
      | None =>
          match SearchBlogsCount.author r with
          | Some author =>
              Matching (fun b => Nat.eqb (Blog.author b) author && is_published b)
          | None => Undefined
          end
      end
  end.

(** [POST /search-blogs-count] *)
Definition search_blogs_count (r : SearchBlogsCount.req) (d : DB)
  : ListingResponse :=
  match count_findQuery r with
  | Threw => mkListing 500 SomethingBroke
  | findQuery =>
      mkListing 200 (TotalDocsBody (List.length (matches findQuery (blogs d))))
  end.
End Listing.

(** The cards of an answer, none when it is not a list of cards. *)
Definition cards_of (resp : ListingResponse) : list Card.t :=
  match listing_body resp with
  | BlogsBody l => l
  | _ => []
  end.

Definition totalDocs_of (resp : ListingResponse) : option nat :=
  match listing_body resp with
  | TotalDocsBody n => Some n
  | _ => None
  end.

(** ** The token middleware *)

(** [s.split(sep)] for a separator of one character. *)
Fixpoint split_on (sep : ascii) (s : string) : list string :=
  match s with
  | EmptyString => [EmptyString]
  | String c r =>
      if Ascii.eqb c sep then EmptyString :: split_on sep r
      else
        match split_on sep r with
        | w :: ws => String c w :: ws
        | [] => [String c EmptyString]
        end
  end.

(** The string holds no separator. *)
Definition no_char (sep : ascii) (s : string) : bool :=
  string_forallb (fun c => negb (Ascii.eqb c sep)) s.

(** What a client calls: a route and the body it posts.  The identity of
    the caller is not part of it; the middleware derives it. *)
Inductive Call :=
| CallCreateBlog (nanoid : string) (body : CreateBlog.req)
| CallGetBlog (body : GetBlog.req)
| CallLikeBlog (body : LikeBlog.req)
| CallIsLikedByUser (_id : ObjectId).

Section Token.
(** [jwt.verify(token, process.env.SECRET_ACCESS_KEY, ...)]: the [id] of the
    payload, or an error. *)
Variable jwt_verify : string -> option ObjectId.

(** [authHeader && authHeader.split(" ")[1]]: [undefined] without a header
    or without a second field, and the empty header itself when the header
    is empty. *)
Definition token_of (authHeader : option string) : option string :=
  match authHeader with
  | None => None
  | Some EmptyString => Some EmptyString
  | Some header => nth_error (split_on " " header) 1
  end.

(** [verifyJWT] in front of the handler [next], which is given [req.user]. *)
Definition verifyJWT (authHeader : option string)
  (next : ObjectId -> Promise unit) : Promise unit :=
  match token_of authHeader with
  | None => send 401 (ErrorBody "Access denied!")
  | Some token =>
      match jwt_verify token with
      | None => send 403 (ErrorBody "Access token is invalid")
      | Some id => next id
      end
  end.

(** The routes as they are mounted: [/get-blog] is open, the other three
    sit behind [verifyJWT]. *)
Definition mounted (authHeader : option string) (c : Call) : Promise unit :=
  match c with
  | CallCreateBlog nanoid body =>
      verifyJWT authHeader (fun user => create_blog user nanoid body)
  | CallGetBlog body => get_blog body
  | CallLikeBlog body => verifyJWT authHeader (fun user => like_blog user body)
  | CallIsLikedByUser _id =>
      verifyJWT authHeader (fun user => isliked_by_user user _id)
  end.
End Token.

(** The request the router gets once the caller is known. *)
Definition request_as (user : ObjectId) (c : Call) : Request :=
  match c with
  | CallCreateBlog nanoid body => PostCreateBlog user nanoid body
  | CallGetBlog body => PostGetBlog body
  | CallLikeBlog body => PostLikeBlog user body
  | CallIsLikedByUser _id => PostIsLikedByUser user _id
  end.

Definition is_open (c : Call) : bool :=
  match c with
  | CallGetBlog _ => true
  | _ => false
  end.

(** ** The connection to the store *)

(** The process-wide state of [connectToDatabase]: the cached handle and
    the number of times [mongoose.connect] has been called.  A handle is
    named by the call that made it. *)
Record Process := mkProcess {
  cachedDb : option nat;
  connects : nat }.

Definition connectToDatabase (p : Process) : nat * Process :=
  match cachedDb p with
  | Some handle => (handle, p)
  | None =>
      let handle := connects p in
      (handle, mkProcess (Some handle) (S (connects p)))
  end.

(** The handles the requests get, one after the other, and the process
    after them. *)
Fixpoint connect_each (requests : nat) (p : Process) : list nat * Process :=
  match requests with
  | 0 => ([], p)
  | S n =>
      let (handle, p1) := connectToDatabase p in
      let (handles, p2) := connect_each n p1 in
      (handle :: handles, p2)
  end.

(** ** Stand-ins for what the routes take from outside *)

(** A verifier that knows one token, Bob's. *)
Definition sample_verify (token : string) : option ObjectId :=
  if String.eqb token "bobs-token" then Some 2 else None.

(** Newest first, in a store that keeps its blogs in the order they were
    saved. *)
Definition newest_first (l : list Blog.t) : list Blog.t := rev l.

(** A regular expression read as a plain word to be found at the head of
    the title; the pattern ["("] is none. *)
Definition sample_regexp (query : string) : option (string -> bool) :=
  if String.eqb query "(" then None else Some (String.prefix query).

Definition sample_skip_error : Err :=
  MongoServerError 2 "Skip value must be non-negative".

(** After the sample requests: Alice's post, Bob's former draft, and the
    post Bob created. *)
Definition busy_db : DB := serve_all sample_requests sample_db.

(** ** The regular expressions of [/signup]

    The two patterns are anchored at both ends and are used through [test]
    only, so what matters of a pattern is which strings it matches as a
    whole.  A string is read one character per UTF-16 code unit, which is
    exact for the code units below 256. *)

Inductive Regex :=
| Class (p : ascii -> bool)
| Empty
| Seq (a b : Regex)
| Alt (a b : Regex)
| Star (a : Regex)
| Ahead (a : Regex).

(** The iterations of a step from [s]: each one has to consume something,
    so the length of [s] bounds their number. *)
Fixpoint star (step : list ascii -> list (list ascii)) (fuel : nat)
  (s : list ascii) : list (list ascii) :=
  s :: match fuel with
       | 0 => []
       | S f =>
           flat_map (star step f)
             (filter (fun t => Nat.ltb (List.length t) (List.length s)) (step s))
       end.

(** What can be left of [s] once the pattern has matched at its head. *)
Fixpoint remainders (r : Regex) (s : list ascii) : list (list ascii) :=
  match r with
  | Class p =>
      match s with
      | c :: t => if p c then [t] else []
      | [] => []
      end
  | Empty => [s]
  | Seq a b => flat_map (remainders b) (remainders a s)
  | Alt a b => remainders a s ++ remainders b s
  | Star a => star (remainders a) (List.length s) s
  | Ahead a =>
      match remainders a s with
      | [] => []
      | _ :: _ => [s]
      end
  end.

Definition is_nil (A : Type) (l : list A) : bool :=
  match l with
  | [] => true
  | _ :: _ => false
  end.

(** [/^r$/.test(s)] *)
Definition test (r : Regex) (s : string) : bool :=
  existsb (@is_nil ascii) (remainders r (list_ascii_of_string s)).

(** [r+], [r?], [r{n}] and [r{m,n}] *)
Definition plus (r : Regex) : Regex := Seq r (Star r).

Definition opt (r : Regex) : Regex := Alt r Empty.

Fixpoint times (n : nat) (r : Regex) : Regex :=
  match n with
  | 0 => Empty
  | S k => Seq r (times k r)
  end.

Fixpoint upto (n : nat) (r : Regex) : Regex :=
  match n with
  | 0 => Empty
  | S k => opt (Seq r (upto k r))
  end.

Definition from_to (m n : nat) (r : Regex) : Regex :=
  Seq (times m r) (upto (n - m) r).

(** [\d], [[a-z]], [[A-Z]], [\w], [.], [[\.-]], [\.] and [@] *)
Definition is_digit (c : ascii) : bool := between 48 57 c.

Definition is_lower (c : ascii) : bool := between 97 122 c.

Definition is_upper (c : ascii) : bool := between 65 90 c.

Definition is_word (c : ascii) : bool :=
  is_alnum c || Nat.eqb (nat_of_ascii c) 95.

Definition is_any (c : ascii) : bool :=
  negb (Nat.eqb (nat_of_ascii c) 10 || Nat.eqb (nat_of_ascii c) 13).

Definition is_dot (c : ascii) : bool := Nat.eqb (nat_of_ascii c) 46.

Definition is_dot_or_hyphen (c : ascii) : bool := is_dot c || is_hyphen c.

Definition is_at (c : ascii) : bool := Nat.eqb (nat_of_ascii c) 64.

(** [/^\w+([\.-]?\w+)*@\w+([\.-]?\w+)*(\.\w{2,3})+$/] *)
Definition emailRegex : Regex :=
  Seq (plus (Class is_word))
    (Seq (Star (Seq (opt (Class is_dot_or_hyphen)) (plus (Class is_word))))
       (Seq (Class is_at)
          (Seq (plus (Class is_word))
             (Seq (Star (Seq (opt (Class is_dot_or_hyphen)) (plus (Class is_word))))
                (plus (Seq (Class is_dot) (from_to 2 3 (Class is_word)))))))).

(** [/^(?=.*\d)(?=.*[a-z])(?=.*[A-Z]).{6,20}$/] *)
Definition passwordRegex : Regex :=
  Seq (Ahead (Seq (Star (Class is_any)) (Class is_digit)))
    (Seq (Ahead (Seq (Star (Class is_any)) (Class is_lower)))
       (Seq (Ahead (Seq (Star (Class is_any)) (Class is_upper)))
          (from_to 6 20 (Class is_any)))).

(** The password policy in plain words: 6 to 20 characters, none of them a
    line break, with a digit, a small letter and a capital letter. *)
Definition password_policy (s : string) : bool :=
  let l := list_ascii_of_string s in
  Nat.leb 6 (List.length l) && Nat.leb (List.length l) 20
  && forallb is_any l
  && existsb is_digit l && existsb is_lower l && existsb is_upper l.

(** Every character the pattern consumes satisfies [P]; what a lookahead
    reads is not consumed. *)
Inductive within (P : ascii -> bool) : Regex -> Prop :=
| within_class (p : ascii -> bool) :
    (forall c, p c = true -> P c = true) -> within P (Class p)
| within_empty : within P Empty
| within_seq (a b : Regex) : within P a -> within P b -> within P (Seq a b)
| within_alt (a b : Regex) : within P a -> within P b -> within P (Alt a b)
| within_star (a : Regex) : within P a -> within P (Star a)
| within_ahead (a : Regex) : within P (Ahead a).

(** A character of a name in an address: a word character, a dot or a
    hyphen. *)
Definition is_name_char (c : ascii) : bool := is_word c || is_dot_or_hyphen c.

(** [generateUsername]: the part of the address before the first [@], with
    a hyphen and [nanoid(5)] behind it when a user carries that name. *)
Definition generateUsername (nanoid5 email : string) (d : DB) : string :=
  let username := hd EmptyString (split_on "@" email) in
  match findOne (has_username username) (users d) with
  | Some _ => (username ++ "-" ++ nanoid5)%string
  | None => username
  end.

Module Signup.
Record req := mk {
  fullname : string;
  email : string;
  password : string }.
End Signup.

(** The checks at the head of [/signup] (lines 102 to 118): the message of
    the first one that fails, sent with status 403. *)
Definition signup_rejects (r : Signup.req) : option string :=
  if Nat.ltb (String.length (Signup.fullname r)) 3 then
    Some "Full name must be at least 3 letters long"
  else if no_length (Signup.email r) then Some "Email required"
  else if negb (test emailRegex (Signup.email r)) then Some "Invalid Email"
  else if negb (test passwordRegex (Signup.password r)) then
    Some "password must be 6 to 20 characters long with a numeric, 1 lowervcase and 1 uppercase letters."
  else None.

(** ** Identifiers as they are posted

    In the body of a request a blog's [_id] is a string.  Mongoose casts it
    to an ObjectId before the query runs, and the query is rejected when
    the cast fails; [like_blog] and [isliked_by_user] above are the handlers
    on an [_id] that casts.  The cast and the rejection are the library's
    and are parameters here. *)

Inductive Posted :=
| PostedCreateBlog (authorId : ObjectId) (nanoid : string) (body : CreateBlog.req)
| PostedGetBlog (body : GetBlog.req)
| PostedLikeBlog (user : ObjectId) (_id : string) (isLikedByUser : bool)
| PostedIsLikedByUser (user : ObjectId) (_id : string).

Section Casting.
(** The ObjectId a posted string stands for, if it is one. *)
Variable castObjectId : string -> option ObjectId.
(** The [CastError] a query is rejected with for a string that is none. *)
Variable cast_error : string -> Err.

(** [/like-blog]: the rejection of [Blog.findOneAndUpdate({ _id }, ...)]
    skips the [.then] callback, and the chain has no [.catch]. *)
Definition like_blog_posted (user : ObjectId) (_id : string)
  (isLikedByUser : bool) : Promise unit :=
  match castObjectId _id with
  | Some id => like_blog user (LikeBlog.mk id isLikedByUser)
  | None => throw (cast_error _id)
  end.

(** Modelled from the spec: the Notification schema (Schema/Notification.js)
    is not among the sources; the spec has a ledger entry refer to its blog,
    so the [blog] of the filter is cast like an [_id].  The rejection of
    [Notification.exists] reaches the [.catch] of the chain. *)
Definition isliked_by_user_posted (user : ObjectId) (_id : string)
  : Promise unit :=
  match castObjectId _id with
  | Some id => isliked_by_user user id
  | None =>
      catch_ (throw (cast_error _id))
        (fun err => send 500 (ErrorBody (err_message err)))
  end.

Definition route_posted (p : Posted) : Promise unit :=
  match p with
  | PostedCreateBlog authorId nanoid body => create_blog authorId nanoid body
  | PostedGetBlog body => get_blog body
  | PostedLikeBlog user _id isLikedByUser =>
      like_blog_posted user _id isLikedByUser
  | PostedIsLikedByUser user _id => isliked_by_user_posted user _id
  end.
End Casting.

(** A cast that knows the identifiers of the sample blogs. *)
Definition sample_cast (s : string) : option ObjectId :=
  if String.eqb s "00000000000000000000000a" then Some 10
  else if String.eqb s "00000000000000000000000b" then Some 11
  else if String.eqb s "000000000000000000000063" then Some 99
  else None.

(** A stand-in for the [CastError] of the library. *)
Definition sample_cast_error (s : string) : Err :=
  TypeError ("Cast to ObjectId failed for value " ++ s).

(** ** Collections: first match, update and removal *)

Section CollectionFacts.
Variable A : Type.
Implicit Types (p q : A -> bool) (u : A -> A) (l : list A).

Lemma updateOne_no_match q u l :
  findOne q l = None -> updateOne q u l = l.
Proof.
  unfold findOne. induction l as [|x r IH]; simpl; [reflexivity|].
  destruct (q x); [discriminate|]. intros H. now rewrite IH.
Qed.

Lemma deleteOne_no_match q l :
  findOne q l = None -> deleteOne q l = l.
Proof.
  unfold findOne. induction l as [|x r IH]; simpl; [reflexivity|].
  destruct (q x); [discriminate|]. intros H. now rewrite IH.
Qed.

(** An update that does not move a document in or out of the filter leaves
    the updated document as the first match. *)
Lemma findOne_updateOne_same q u l :
  (forall x, q (u x) = q x) ->
  findOne q (updateOne q u l) = option_map u (findOne q l).
Proof.
  intros Hq. unfold findOne. induction l as [|x r IH]; simpl; [reflexivity|].
  destruct (q x) eqn:E; simpl.
  - now rewrite Hq, E.
  - now rewrite E.
Qed.

(** Two filters whose first match is the same document: updating through
    one shows through the other. *)
Lemma findOne_updateOne_other p q u l a :
  (forall x, p (u x) = p x) ->
  findOne p l = Some a ->
  findOne q l = Some a ->
  findOne p (updateOne q u l) = Some (u a).
Proof.
  intros Hp. unfold findOne. induction l as [|x r IH]; simpl; [discriminate|].
  intros Fp Fq.
  destruct (find_some p (x :: r) Fp) as [_ Pa].
  destruct (find_some q (x :: r) Fq) as [_ Qa].
  destruct (q x) eqn:Eq.
  - injection Fq as ->. simpl. now rewrite Hp, Pa.
  - simpl. destruct (p x) eqn:Ep.
    + injection Fp as ->. congruence.
    + now apply IH.
Qed.

(** An update through a filter that excludes what another filter selects
    is invisible to the latter. *)
Lemma findOne_updateOne_disjoint p q u l :
  (forall x, p (u x) = p x) ->
  (forall x, p x = true -> q x = false) ->
  findOne p (updateOne q u l) = findOne p l.
Proof.
  intros Hp Hpq. unfold findOne. induction l as [|x r IH]; simpl; [reflexivity|].
  destruct (q x) eqn:Eq; simpl.
  - rewrite Hp. destruct (p x) eqn:Ep; [|reflexivity].
    rewrite (Hpq x Ep) in Eq. discriminate.
  - now rewrite IH.
Qed.

Lemma findOne_app_new q l x :
  findOne q l = None -> q x = true -> findOne q (l ++ [x]) = Some x.
Proof.
  unfold findOne. induction l as [|y r IH]; simpl; intros H Hx.
  - now rewrite Hx.
  - destruct (q y); [discriminate|]. now apply IH.
Qed.

Lemma deleteOne_app_new q l x :
  findOne q l = None -> q x = true -> deleteOne q (l ++ [x]) = l.
Proof.
  unfold findOne. induction l as [|y r IH]; simpl; intros H Hx.
  - now rewrite Hx.
  - destruct (q y); [discriminate|]. now rewrite IH.
Qed.

Lemma countDocuments_app q l x :
  countDocuments q (l ++ [x]) =
  (countDocuments q l + (if q x then 1 else 0))%nat.
Proof.
  unfold countDocuments. rewrite filter_app, length_app. simpl.
  now destruct (q x).
Qed.

(** A key that is unique picks the document any other filter found. *)
Lemma findOne_by_unique_key (key : A -> string) p l a :
  NoDup (map key l) ->
  findOne p l = Some a ->
  findOne (fun x => String.eqb (key x) (key a)) l = Some a.
Proof.
  unfold findOne. induction l as [|x r IH]; simpl; [discriminate|].
  intros ND F. inversion ND as [|k ks Hnotin ND']; subst.
  destruct (String.eqb (key x) (key a)) eqn:E.
  - apply String.eqb_eq in E. destruct (p x).
    + exact F.
    + exfalso. apply Hnotin. rewrite E. apply in_map.
      now destruct (find_some p r F).
  - destruct (p x).
    + injection F as ->. now rewrite String.eqb_refl in E.
    + now apply IH.
Qed.
End CollectionFacts.

(** ** The string helpers on examples *)

Example slug_of_a_title : slug "Hello, World! 2024" = "Hello-World-2024".
Proof. reflexivity. Qed.

Example slug_keeps_outer_hyphens : slug " Hello World " = "-Hello-World-".
Proof. reflexivity. Qed.

Example toLowerCase_of_a_tag : toLowerCase "Tech-News 9" = "tech-news 9".
Proof. reflexivity. Qed.

Example toLowerCase_beyond_ascii :
  map (fun n => toLowerCase (String (ascii_of_nat n) EmptyString))
    [201; 215; 222; 223]
  = map (fun n => String (ascii_of_nat n) EmptyString) [233; 215; 254; 223].
Proof. reflexivity. Qed.

Example edit_mode_only : map (fun m => loosely_equals m "edit")
  [Some "edit"; Some "Edit"; Some ""; None] = [true; false; false; false].
Proof. reflexivity. Qed.

(** ** [/get-blog] *)

(** A run of [/get-blog] on a blog that resolves together with its author:
    both updates are applied, then the draft check chooses the response,
    which carries the document as it was found. *)
Lemma get_blog_resolved (d : DB) (r : GetBlog.req) (b : Blog.t) (a : User.t) :
  findOne (has_blog_id (GetBlog.blogId r)) (blogs d) = Some b ->
  findOne (has_user_oid (Blog.author b)) (users d) = Some a ->
  serve (get_blog r) d =
  (mkOutcome
     (Some (if Blog.draft b && negb (truthy (GetBlog.draft r))
            then access_denied
            else mkResponse 200
                   (BlogBody (mkPopulated b (Some (User.personal_info a))))))
     [],
   mkDB
     (updateOne (has_username (User.username (User.personal_info a)))
        (inc_user_reads (delta_of_mode (GetBlog.mode r))) (users d))
     (updateOne (has_blog_id (GetBlog.blogId r))
        (inc_blog_reads (delta_of_mode (GetBlog.mode r))) (blogs d))
     (notifications d) (next_oid d)).
Proof.
  intros Hb Ha.
  unfold serve, get_blog, catch_, then_, floating, send, throw,
    Blog_findOneAndUpdate_populate, Blog_findOneAndUpdate,
    User_findOneAndUpdate, query, findOneAndUpdate, get_db, resolve, populate.
  unfold findOne in *. cbn. rewrite Hb. cbn. rewrite Ha. cbn.
  unfold delta_of_mode, access_denied.
  destruct (Blog.draft b && negb (truthy (GetBlog.draft r))); reflexivity.
Qed.

(** A run of [/get-blog] on a blog identifier that matches nothing: the
    dereference of [null] is caught and answered with status 500. *)
Lemma get_blog_not_found (d : DB) (r : GetBlog.req) :
  findOne (has_blog_id (GetBlog.blogId r)) (blogs d) = None ->
  serve (get_blog r) d =
  (mkOutcome (Some (mkResponse 500 (ErrObject (null_deref "author")))) [], d).
Proof.
  intros Hb.
  unfold serve, get_blog, catch_, then_, floating, send, throw,
    Blog_findOneAndUpdate_populate, Blog_findOneAndUpdate,
    User_findOneAndUpdate, query, findOneAndUpdate, get_db, resolve, populate.
  cbn. rewrite (updateOne_no_match _ _ _ Hb). unfold findOne in *.
  rewrite Hb. cbn. now destruct d.
Qed.

Lemma inc_blog_reads_0 (b : Blog.t) : inc_blog_reads 0 b = b.
Proof.
  destruct b as [i bi t de ba c ta au dr [rd lk]]. unfold inc_blog_reads. simpl.
  now rewrite Z.add_0_r.
Qed.

Lemma inc_user_reads_0 (u : User.t) : inc_user_reads 0 u = u.
Proof.
  destruct u as [i pi [tp tr] bl]. unfold inc_user_reads. simpl.
  now rewrite Z.add_0_r.
Qed.

(** Where the blog and its author are after a run of [/get-blog]. *)
Lemma get_blog_stored (d : DB) (r : GetBlog.req) (b : Blog.t) (a : User.t) :
  findOne (has_blog_id (GetBlog.blogId r)) (blogs d) = Some b ->
  findOne (has_user_oid (Blog.author b)) (users d) = Some a ->
  let d' := snd (serve (get_blog r) d) in
  findOne (has_blog_id (GetBlog.blogId r)) (blogs d') =
    Some (inc_blog_reads (delta_of_mode (GetBlog.mode r)) b)
  /\ (unique_usernames d ->
      findOne (has_user_oid (Blog.author b)) (users d') =
        Some (inc_user_reads (delta_of_mode (GetBlog.mode r)) a)).
Proof.
  intros Hb Ha d'. subst d'. rewrite (get_blog_resolved _ _ Hb Ha). cbn.
  split.
  - rewrite findOne_updateOne_same by reflexivity. now rewrite Hb.
  - intros U. apply findOne_updateOne_other; [reflexivity | exact Ha |].
    exact (findOne_by_unique_key
             (fun u => User.username (User.personal_info u)) _ _ U Ha).
Qed.





(** Where two users carry one username the read is credited to the first
    of them, who need not be the author. *)
Remark get_blog_credits_first_namesake :
  let d' := snd (serve (get_blog (GetBlog.mk "Againq7" None None)) namesake_db) in
  option_map (fun u => User.total_reads (User.account_info u))
    (findOne (has_user_oid 3) (users d')) = Some 0%Z
  /\ option_map (fun u => User.total_reads (User.account_info u))
       (findOne (has_user_oid 1) (users d')) = Some 8%Z.
Proof.
  split; reflexivity.
Qed.

(** C5.  A view with [mode] other than ["edit"] of a draft, by a caller who
    did not set the draft flag, is answered with the access-denied error
    and nothing else, so the blog is not returned; the store has the
    blog's read counter incremented all the same (and the author's, where
    usernames are unique). *)
Theorem get_blog_draft_denied_after_count
  (d : DB) (r : GetBlog.req) (b : Blog.t) (a : User.t) :
  findOne (has_blog_id (GetBlog.blogId r)) (blogs d) = Some b ->
  findOne (has_user_oid (Blog.author b)) (users d) = Some a ->
  Blog.draft b = true ->
  truthy (GetBlog.draft r) = false ->
  loosely_equals (GetBlog.mode r) "edit" = false ->
  fst (serve (get_blog r) d) = mkOutcome (Some access_denied) []
  /\ findOne (has_blog_id (GetBlog.blogId r))
       (blogs (snd (serve (get_blog r) d))) = Some (inc_blog_reads 1 b)
  /\ Blog.total_reads (Blog.activity (inc_blog_reads 1 b)) =
       (Blog.total_reads (Blog.activity b) + 1)%Z
  /\ (unique_usernames d ->
      findOne (has_user_oid (Blog.author b))
        (users (snd (serve (get_blog r) d))) = Some (inc_user_reads 1 a)).
Proof.
  intros Hb Ha Dr Fl Md.
  destruct (get_blog_stored _ _ Hb Ha) as [Sb Sa].
  unfold delta_of_mode in Sb, Sa. rewrite Md in Sb, Sa.
  split; [|split; [exact Sb | split; [reflexivity | exact Sa]]].
  rewrite (get_blog_resolved _ _ Hb Ha). cbn. now rewrite Dr, Fl.
Qed.

(** C10.  A view with [mode] other than ["edit"] that is answered with the
    blog returns the document as the query found it: its
    [activity.total_reads] is the value from before this call, one less
    than what the store holds after it. *)
Theorem get_blog_returns_count_before_view
  (d : DB) (r : GetBlog.req) (b : Blog.t) (a : User.t) :
  findOne (has_blog_id (GetBlog.blogId r)) (blogs d) = Some b ->
  findOne (has_user_oid (Blog.author b)) (users d) = Some a ->
  loosely_equals (GetBlog.mode r) "edit" = false ->
  Blog.draft b && negb (truthy (GetBlog.draft r)) = false ->
  exists returned stored,
    response (fst (serve (get_blog r) d)) =
      Some (mkResponse 200 (BlogBody returned))
    /\ findOne (has_blog_id (GetBlog.blogId r))
         (blogs (snd (serve (get_blog r) d))) = Some stored
    /\ Blog.total_reads (Blog.activity (doc returned)) =
         Blog.total_reads (Blog.activity b)
    /\ Blog.total_reads (Blog.activity stored) =
         (Blog.total_reads (Blog.activity (doc returned)) + 1)%Z.
Proof.
  intros Hb Ha Md Vis.
  destruct (get_blog_stored _ _ Hb Ha) as [Sb _].
  unfold delta_of_mode in Sb. rewrite Md in Sb.
  exists (mkPopulated b (Some (User.personal_info a))), (inc_blog_reads 1 b).
  split; [|split; [exact Sb | split; reflexivity]].
  rewrite (get_blog_resolved _ _ Hb Ha). cbn. now rewrite Vis.
Qed.

(** ** [/like-blog] and [/isliked-by-user] *)

Ltac run_like :=
  unfold serve, like_blog, like_blog_then, like_increment, isliked_by_user,
    catch_, then_, floating, send, throw,
    Blog_findOneAndUpdate, Notification_save, Notification_findOneAndDelete,
    Notification_exists, query, findOneAndUpdate, findOneAndDelete;
  cbn.

(** The flag set, on a blog that resolves: the like counter goes DOWN by
    one, a like entry is appended and the answer is [likedByUser: true]. *)
Lemma like_blog_flag_set (d : DB) (user id : ObjectId) (blog : Blog.t) :
  findOne (has_blog_oid id) (blogs d) = Some blog ->
  serve (like_blog user (LikeBlog.mk id true)) d =
  (mkOutcome (Some (mkResponse 200 (LikedBody true))) [],
   mkDB (users d)
     (updateOne (has_blog_oid id) (inc_blog_likes (-1)) (blogs d))
     (notifications d
        ++ [Notification.mk (next_oid d) "like" (Blog.author blog) id user])
     (S (next_oid d))).
Proof.
  intros Hb. run_like. unfold findOne in *. now rewrite Hb.
Qed.

(** The flag set, on a blog that does not resolve: the callback dereferences
    [null], nothing catches the rejection and no response is sent. *)
Lemma like_blog_flag_set_not_found (d : DB) (user id : ObjectId) :
  findOne (has_blog_oid id) (blogs d) = None ->
  serve (like_blog user (LikeBlog.mk id true)) d =
  (mkOutcome None [null_deref "author"], d).
Proof.
  intros Hb. run_like. rewrite (updateOne_no_match _ _ _ Hb).
  unfold findOne in *. rewrite Hb. cbn. now destruct d.
Qed.

(** The flag clear: the like counter goes UP by one, the first like entry
    of the caller on the blog is removed and the answer is
    [likedByUser: false], whether the blog resolves or not. *)
Lemma like_blog_flag_clear (d : DB) (user id : ObjectId) :
  serve (like_blog user (LikeBlog.mk id false)) d =
  (mkOutcome (Some (mkResponse 200 (LikedBody false))) [],
   mkDB (users d)
     (updateOne (has_blog_oid id) (inc_blog_likes 1) (blogs d))
     (deleteOne (is_like_of user id) (notifications d))
     (next_oid d)).
Proof.
  run_like. reflexivity.
Qed.

Lemma isliked_by_user_answer (d : DB) (user id : ObjectId) :
  serve (isliked_by_user user id) d =
  (mkOutcome
     (Some (mkResponse 200
        (ExistsBody
           (option_map Notification._id
              (findOne (is_like_of user id) (notifications d))))))
     [],
   d).
Proof.
  run_like. now destruct d.
Qed.

Lemma is_like_of_own (user id oid author : ObjectId) :
  is_like_of user id (Notification.mk oid "like" author id user) = true.
Proof.
  unfold is_like_of. simpl. now rewrite !Nat.eqb_refl.
Qed.

Lemma has_blog_oid_inc_likes (id : ObjectId) (n : Z) (b : Blog.t) :
  has_blog_oid id (inc_blog_likes n b) = has_blog_oid id b.
Proof. reflexivity. Qed.

(** C2.  On the sample database Bob likes Alice's post, which has five
    likes: the entry is created and the answer is [likedByUser: true], and
    the counter is 4 where the claim has 6; he then withdraws the like: the
    entry is removed, the answer is [likedByUser: false], and the counter is
    back at 5 where the claim has it decremented. *)
Theorem like_blog_counter_runs_backwards :
  let like := serve (like_blog 2 (LikeBlog.mk 10 true)) sample_db in
  let unlike := serve (like_blog 2 (LikeBlog.mk 10 false)) (snd like) in
  likes_of 10 sample_db = Some 5%Z
  /\ response (fst like) = Some (mkResponse 200 (LikedBody true))
  /\ like_entries 2 10 (snd like) = 1
  /\ likes_of 10 (snd like) = Some 4%Z
  /\ response (fst unlike) = Some (mkResponse 200 (LikedBody false))
  /\ like_entries 2 10 (snd unlike) = 0
  /\ likes_of 10 (snd unlike) = Some 5%Z.
Proof.
  repeat split; reflexivity.
Qed.

(** C3, as stated, fails: after two likes in a row Bob has two like entries
    on Alice's post. *)
Lemma two_likes_leave_two_entries :
  ~ (like_entries 2 10
       (snd (serve (like_blog 2 (LikeBlog.mk 10 true))
          (snd (serve (like_blog 2 (LikeBlog.mk 10 true)) sample_db)))) <= 1).
Proof.
  vm_compute. lia.
Qed.

(** C3, amended.  Each like of a blog that resolves appends one like entry
    for the caller and the blog, whatever the ledger holds: after one call
    the pair has one entry more, after a second call in sequence two more.
    So a pair without an entry has exactly one after the first like, and
    two, not one, after the second. *)
Theorem like_blog_appends_an_entry
  (d : DB) (user id : ObjectId) (blog : Blog.t) :
  findOne (has_blog_oid id) (blogs d) = Some blog ->
  let once := snd (serve (like_blog user (LikeBlog.mk id true)) d) in
  let twice := snd (serve (like_blog user (LikeBlog.mk id true)) once) in
  like_entries user id once = S (like_entries user id d)
  /\ like_entries user id twice = S (S (like_entries user id d)).
Proof.
  intros Hb once twice.
  assert (E1 : once =
    mkDB (users d)
      (updateOne (has_blog_oid id) (inc_blog_likes (-1)) (blogs d))
      (notifications d
         ++ [Notification.mk (next_oid d) "like" (Blog.author blog) id user])
      (S (next_oid d))).
  { subst once. now rewrite (@like_blog_flag_set d user id blog Hb). }
  assert (Hb1 : findOne (has_blog_oid id) (blogs once) =
                Some (inc_blog_likes (-1) blog)).
  { rewrite E1. cbn.
    rewrite findOne_updateOne_same by (intros; apply has_blog_oid_inc_likes).
    now rewrite Hb. }
  assert (C1 : like_entries user id once = S (like_entries user id d)).
  { rewrite E1. unfold like_entries. simpl (notifications _).
    rewrite countDocuments_app, is_like_of_own. lia. }
  split; [exact C1|].
  subst twice. rewrite (@like_blog_flag_set once user id _ Hb1).
  unfold like_entries in *. simpl (notifications _).
  rewrite countDocuments_app, is_like_of_own. lia.
Qed.

(** C7.  From a state in which the caller has no like entry on a blog that
    resolves: after a like, [/isliked-by-user] answers with an entry
    (truthy); after the unlike that follows, it answers [null] (falsy). *)
Theorem like_then_unlike_is_seen
  (d : DB) (user id : ObjectId) (blog : Blog.t) :
  findOne (has_blog_oid id) (blogs d) = Some blog ->
  findOne (is_like_of user id) (notifications d) = None ->
  let liked := snd (serve (like_blog user (LikeBlog.mk id true)) d) in
  let asked := snd (serve (isliked_by_user user id) liked) in
  let unliked := snd (serve (like_blog user (LikeBlog.mk id false)) asked) in
  answers_liked (fst (serve (isliked_by_user user id) liked)) = Some true
  /\ answers_liked (fst (serve (isliked_by_user user id) unliked)) = Some false.
Proof.
  intros Hb Hn liked asked unliked.
  assert (Ea : asked = liked).
  { subst asked. now rewrite isliked_by_user_answer. }
  subst unliked. rewrite Ea. subst liked.
  rewrite (@like_blog_flag_set d user id blog Hb), like_blog_flag_clear.
  rewrite !isliked_by_user_answer. simpl (notifications _).
  rewrite (deleteOne_app_new _ _ _ Hn (is_like_of_own _ _ _ _)).
  rewrite (findOne_app_new _ _ _ Hn (is_like_of_own _ _ _ _)), Hn.
  split; reflexivity.
Qed.

(** C8.  On the sample database no blog has the identifier 99.  A like of
    it sends no response at all and leaves a [TypeError] that nothing
    caught; an unlike of it is answered with status 200 as if it had
    succeeded.  Neither is a structured error response. *)
Theorem like_blog_unknown_blog_escapes :
  findOne (has_blog_oid 99) (blogs sample_db) = None
  /\ serve (like_blog 2 (LikeBlog.mk 99 true)) sample_db =
     (mkOutcome None [null_deref "author"], sample_db)
  /\ fst (serve (like_blog 2 (LikeBlog.mk 99 false)) sample_db) =
     mkOutcome (Some (mkResponse 200 (LikedBody false))) [].
Proof.
  repeat split; reflexivity.
Qed.

(** ** [/create-blog] *)

Ltac run_create :=
  unfold serve, create_blog, catch_, then_, floating, send, throw,
    Blog_findOneAndUpdate, User_findOneAndUpdate, Blog_save, query,
    findOneAndUpdate;
  cbn.

(** With the draft flag off or omitted, the title is all that is checked. *)
Lemma create_blog_rejects_flag_off (r : CreateBlog.req) :
  truthy (CreateBlog.draft r) = false ->
  create_blog_rejects r =
  if no_length (CreateBlog.title r) then Some "you must provide blog title."
  else None.
Proof.
  intros F. unfold create_blog_rejects. now rewrite F.
Qed.

(** With the draft flag on, every field is checked. *)
Lemma create_blog_accepts_flag_on (r : CreateBlog.req) :
  truthy (CreateBlog.draft r) = true ->
  create_blog_rejects r = None ->
  no_length (CreateBlog.title r) = false
  /\ no_length (CreateBlog.description r) = false
  /\ no_length (CreateBlog.banner r) = false
  /\ blocks (CreateBlog.content r) <> []
  /\ CreateBlog.tags r <> [].
Proof.
  intros F. unfold create_blog_rejects. rewrite F.
  destruct (no_length (CreateBlog.title r)); [discriminate|].
  destruct (no_length (CreateBlog.description r)); [discriminate|].
  destruct (no_length (CreateBlog.banner r)); [discriminate|].
  destruct (blocks (CreateBlog.content r)); [discriminate|].
  destruct (CreateBlog.tags r); [discriminate|].
  intros _. repeat split; discriminate.
Qed.

(** The update path: the blog's fields are overwritten and nothing else is
    touched; the user collection, with every [total_posts], is as before. *)
Lemma create_blog_update_path
  (d : DB) (authorId : ObjectId) (nanoid blogId : string) (r : CreateBlog.req) :
  create_blog_rejects r = None ->
  truthy_string (CreateBlog.blogId r) = Some blogId ->
  serve (create_blog authorId nanoid r) d =
  (mkOutcome (Some (mkResponse 200 (IdBody blogId))) [],
   mkDB (users d)
     (updateOne (has_blog_id blogId)
        (set_fields (CreateBlog.title r) (CreateBlog.description r)
           (CreateBlog.banner r) (CreateBlog.content r)
           (map toLowerCase (CreateBlog.tags r)) (truthy (CreateBlog.draft r)))
        (blogs d))
     (notifications d) (next_oid d)).
Proof.
  intros V B. run_create. rewrite V, B. reflexivity.
Qed.

(** The create path, when the generated identifier is free: the blog is
    appended and the caller's [total_posts] moves by 1 for a post, by 0 for
    a draft. *)
Lemma create_blog_create_path
  (d : DB) (authorId : ObjectId) (nanoid : string) (r : CreateBlog.req) :
  create_blog_rejects r = None ->
  truthy_string (CreateBlog.blogId r) = None ->
  existsb (has_blog_id (slug (CreateBlog.title r) ++ nanoid)%string) (blogs d)
    = false ->
  serve (create_blog authorId nanoid r) d =
  (mkOutcome
     (Some (mkResponse 200
        (IdBody (slug (CreateBlog.title r) ++ nanoid)%string))) [],
   mkDB
     (updateOne (has_user_oid authorId)
        (inc_posts_push_blog
           (if truthy (CreateBlog.draft r) then 0%Z else 1%Z) (next_oid d))
        (users d))
     (blogs d ++
      [Blog.mk (next_oid d) (slug (CreateBlog.title r) ++ nanoid)%string
         (CreateBlog.title r) (CreateBlog.description r) (CreateBlog.banner r)
         (CreateBlog.content r) (map toLowerCase (CreateBlog.tags r))
         authorId (truthy (CreateBlog.draft r)) (Blog.mkActivity 0 0)])
     (notifications d) (S (next_oid d))).
Proof.
  intros V B Free. run_create. rewrite V, B. cbn. rewrite Free. reflexivity.
Qed.

(** A creation keeps [total_posts] in step with the number of published
    blogs of the caller: both move by 1 for a post and by 0 for a draft. *)
Lemma create_blog_keeps_count
  (d : DB) (authorId : ObjectId) (nanoid : string) (r : CreateBlog.req)
  (u : User.t) :
  create_blog_rejects r = None ->
  truthy_string (CreateBlog.blogId r) = None ->
  existsb (has_blog_id (slug (CreateBlog.title r) ++ nanoid)%string) (blogs d)
    = false ->
  findOne (has_user_oid authorId) (users d) = Some u ->
  let d' := snd (serve (create_blog authorId nanoid r) d) in
  let k := if truthy (CreateBlog.draft r) then 0%Z else 1%Z in
  published_by authorId d' = (published_by authorId d + k)%Z
  /\ posts_of authorId d' =
     Some (User.total_posts (User.account_info u) + k)%Z.
Proof.
  intros V B Free Hu d' k. subst d' k.
  rewrite (@create_blog_create_path d authorId nanoid r V B Free).
  unfold published_by, posts_of. simpl (blogs _). simpl (users _). split.
  - rewrite countDocuments_app. cbn [Blog.author Blog.draft].
    rewrite Nat.eqb_refl. destruct (truthy (CreateBlog.draft r)); cbn; lia.
  - rewrite findOne_updateOne_same by reflexivity. now rewrite Hu.
Qed.

(** An update through [blogId] leaves every [total_posts] as it was. *)
Lemma create_blog_update_keeps_users
  (d : DB) (authorId : ObjectId) (nanoid blogId : string) (r : CreateBlog.req) :
  truthy_string (CreateBlog.blogId r) = Some blogId ->
  users (snd (serve (create_blog authorId nanoid r) d)) = users d.
Proof.
  intros B. destruct (create_blog_rejects r) eqn:V.
  - run_create. rewrite V. reflexivity.
  - now rewrite (@create_blog_update_path d authorId nanoid blogId r V B).
Qed.

(** C1.  On the sample database Bob sends a post for publication with a
    title and nothing else: it is accepted and stored with [draft] false
    and empty description, banner, content and tags.  The same body saved
    as a draft is refused for its missing description.  The completeness
    checks guard the draft, not the post. *)
Theorem create_blog_checks_the_wrong_state :
  let accepted := serve (create_blog 2 "z3" bare_post) sample_db in
  fst accepted = mkOutcome (Some (mkResponse 200 (IdBody "Helloz3"))) []
  /\ findOne (has_blog_id "Helloz3") (blogs (snd accepted)) =
     Some (Blog.mk 12 "Helloz3" "Hello" "" "" (mkContent []) [] 2 false
             (Blog.mkActivity 0 0))
  /\ serve (create_blog 2 "z3" bare_draft) sample_db =
     (mkOutcome
        (Some (mkResponse 403 (ErrorBody "you must provide blog description.")))
        [],
      sample_db).
Proof.
  repeat split; reflexivity.
Qed.

(** C6.  On the sample database Bob owns one blog, a draft, and his
    [total_posts] is 0.  He publishes a new post: [total_posts] becomes 1,
    as the claim has it.  He then sends his draft again with the draft flag
    off: the update is accepted, he now owns two blogs that are not drafts,
    and his [total_posts] is still 1. *)
Theorem update_leaves_total_posts_behind :
  let created := serve (create_blog 2 "k9" full_post) sample_db in
  let updated := serve (create_blog 2 "z3" publish_draft11) (snd created) in
  posts_of 2 sample_db = Some 0%Z
  /\ published_by 2 sample_db = 0%Z
  /\ fst created = mkOutcome (Some (mkResponse 200 (IdBody "Rocq-Tipsk9"))) []
  /\ published_by 2 (snd created) = 1%Z
  /\ posts_of 2 (snd created) = Some 1%Z
  /\ fst updated = mkOutcome (Some (mkResponse 200 (IdBody "Notesy2"))) []
  /\ option_map Blog.draft (findOne (has_blog_id "Notesy2") (blogs (snd updated)))
     = Some false
  /\ published_by 2 (snd updated) = 2%Z
  /\ posts_of 2 (snd updated) = Some 1%Z.
Proof.
  repeat split; reflexivity.
Qed.

(** ** Likes in flight *)

(** The two calls of a request, one after the other, are the handler. *)
Lemma like_steps_are_like_blog (d : DB) (user : ObjectId) (r : LikeBlog.req) :
  let (t1, d1) := like_step (Received user r) d in
  like_step t1 d1 =
  (Done user r (fst (serve (like_blog user r) d)),
   snd (serve (like_blog user r) d)).
Proof.
  destruct r as [id [|]]; run_like; unfold like_step; run_like;
    destruct (findOne (has_blog_oid id) (blogs d)); reflexivity.
Qed.

Lemma like_blog_then_keeps_blogs
  (d : DB) (user : ObjectId) (r : LikeBlog.req) (found : option Blog.t) :
  blogs (snd (serve (like_blog_then user r found) d)) = blogs d.
Proof.
  destruct r as [id [|]], found; run_like; reflexivity.
Qed.

Lemma like_step_request (t : LikeTask) (d : DB) :
  request_of (fst (like_step t d)) = request_of t.
Proof.
  destruct t as [u r|u r f|u r o]; simpl; try reflexivity.
  now destruct (serve (like_blog_then u r f) d).
Qed.

Lemma like_step_remaining (t : LikeTask) (d : DB) :
  remaining (fst (like_step t d)) = pred (remaining t).
Proof.
  destruct t as [u r|u r f|u r o]; simpl; try reflexivity.
  now destruct (serve (like_blog_then u r f) d).
Qed.

(** One call moves the like counter of a blog by what the calling request
    newly applied to it. *)
Lemma like_step_counter (id : ObjectId) (t : LikeTask) (d : DB) (b : Blog.t) :
  findOne (has_blog_oid id) (blogs d) = Some b ->
  exists b',
    findOne (has_blog_oid id) (blogs (snd (like_step t d))) = Some b'
    /\ Blog.total_likes (Blog.activity b') =
       (Blog.total_likes (Blog.activity b)
        + applied id (fst (like_step t d)) - applied id t)%Z.
Proof.
  intros Hb. destruct t as [u r|u r f|u r o].
  - unfold like_step, Blog_findOneAndUpdate, query, findOneAndUpdate. cbn.
    destruct (Nat.eqb (LikeBlog._id r) id) eqn:E.
    + apply Nat.eqb_eq in E. subst id.
      exists (inc_blog_likes (like_increment r) b). split.
      * rewrite findOne_updateOne_same by reflexivity. now rewrite Hb.
      * cbn. lia.
    + exists b. split; [|lia].
      rewrite findOne_updateOne_disjoint; [exact Hb | reflexivity |].
      intros x Hx. unfold has_blog_oid in *. apply Nat.eqb_eq in Hx.
      rewrite Hx. apply Nat.eqb_neq. apply Nat.eqb_neq in E. congruence.
  - exists b. unfold like_step.
    pose proof (like_blog_then_keeps_blogs d u r f) as K.
    destruct (serve (like_blog_then u r f) d) as [o d']. cbn in *.
    rewrite K. split; [exact Hb | lia].
  - exists b. cbn. split; [exact Hb | lia].
Qed.

Lemma step_nth_counter (id : ObjectId) (i : nat) (ts : list LikeTask)
  (d : DB) (b : Blog.t) :
  findOne (has_blog_oid id) (blogs d) = Some b ->
  exists b',
    findOne (has_blog_oid id) (blogs (snd (step_nth i ts d))) = Some b'
    /\ Blog.total_likes (Blog.activity b') =
       (Blog.total_likes (Blog.activity b)
        + applied_all id (fst (step_nth i ts d)) - applied_all id ts)%Z.
Proof.
  revert i. induction ts as [|t rest IH]; intros i Hb.
  - exists b. cbn. split; [exact Hb | lia].
  - destruct i as [|j]; cbn.
    + destruct (like_step_counter id t d Hb) as [b' [F L]].
      destruct (like_step t d) as [t' d']. cbn in *.
      exists b'. split; [exact F | lia].
    + destruct (IH j Hb) as [b' [F L]].
      destruct (step_nth j rest d) as [rest' d']. cbn in *.
      exists b'. split; [exact F | lia].
Qed.

(** No update is lost: whatever the schedule, the like counter of a blog has
    moved by the sum of what the requests have applied to it. *)
Lemma run_counter (id : ObjectId) (schedule : list nat) :
  forall (ts : list LikeTask) (d : DB) (b : Blog.t),
  findOne (has_blog_oid id) (blogs d) = Some b ->
  exists b',
    findOne (has_blog_oid id) (blogs (snd (run schedule ts d))) = Some b'
    /\ Blog.total_likes (Blog.activity b') =
       (Blog.total_likes (Blog.activity b)
        + applied_all id (fst (run schedule ts d)) - applied_all id ts)%Z.
Proof.
  induction schedule as [|i later IH]; intros ts d b Hb.
  - exists b. cbn. split; [exact Hb | lia].
  - cbn. destruct (step_nth_counter id i ts d Hb) as [b1 [F1 L1]].
    destruct (step_nth i ts d) as [ts1 d1]. cbn in *.
    destruct (IH ts1 d1 b1 F1) as [b2 [F2 L2]].
    exists b2. split; [exact F2 | lia].
Qed.

Lemma step_nth_requests (i : nat) (ts : list LikeTask) (d : DB) :
  map request_of (fst (step_nth i ts d)) = map request_of ts.
Proof.
  revert i. induction ts as [|t rest IH]; intros i; [reflexivity|].
  destruct i as [|j]; cbn.
  - pose proof (like_step_request t d) as R.
    destruct (like_step t d). cbn in *. now rewrite R.
  - specialize (IH j). destruct (step_nth j rest d). cbn in *. now rewrite IH.
Qed.

Lemma run_requests (schedule : list nat) :
  forall (ts : list LikeTask) (d : DB),
  map request_of (fst (run schedule ts d)) = map request_of ts.
Proof.
  induction schedule as [|i later IH]; intros ts d; [reflexivity|].
  cbn. pose proof (step_nth_requests i ts d) as R.
  destruct (step_nth i ts d) as [ts1 d1]. cbn in *. now rewrite IH.
Qed.

Lemma applied_all_done (id : ObjectId) (ts : list LikeTask) :
  Forall is_done ts -> applied_all id ts = requested id (map request_of ts).
Proof.
  induction 1 as [|t rest Ht _ IH]; [reflexivity|].
  destruct t; try contradiction. cbn. now rewrite IH.
Qed.

Lemma likes_from_requested (id : ObjectId) (users : list ObjectId) :
  requested id (map request_of (likes_from users id)) =
  (- Z.of_nat (List.length users))%Z
  /\ applied_all id (likes_from users id) = 0%Z.
Proof.
  induction users as [|u rest [IH1 IH2]]; [split; reflexivity|].
  split.
  - cbn [likes_from map request_of requested List.length LikeBlog._id].
    unfold likes_from in IH1. rewrite IH1, Nat.eqb_refl.
    unfold like_increment. cbn [LikeBlog.isLikedByUser negb]. lia.
  - cbn. unfold likes_from in IH2. now rewrite IH2.
Qed.

Lemma step_nth_remaining (j i : nat) (ts : list LikeTask) (d : DB) :
  remaining_at j (fst (step_nth i ts d)) =
  if Nat.eqb i j then pred (remaining_at j ts) else remaining_at j ts.
Proof.
  revert i j. induction ts as [|t rest IH]; intros i j.
  - destruct (Nat.eqb i j), j; reflexivity.
  - destruct i as [|i'], j as [|j']; cbn.
    + pose proof (like_step_remaining t d) as R.
      destruct (like_step t d). exact R.
    + now destruct (like_step t d).
    + now destruct (step_nth i' rest d).
    + specialize (IH i' j'). destruct (step_nth i' rest d). exact IH.
Qed.

Lemma run_remaining (j : nat) (schedule : list nat) :
  forall (ts : list LikeTask) (d : DB),
  remaining_at j (fst (run schedule ts d)) =
  remaining_at j ts - count_occ Nat.eq_dec schedule j.
Proof.
  induction schedule as [|i later IH]; intros ts d; cbn; [lia|].
  pose proof (step_nth_remaining j i ts d) as R.
  destruct (step_nth i ts d) as [ts1 d1]. cbn in R. rewrite IH, R.
  destruct (Nat.eq_dec i j) as [->|N].
  - rewrite Nat.eqb_refl. lia.
  - apply Nat.eqb_neq in N. rewrite N. lia.
Qed.

Lemma nothing_remaining_done (ts : list LikeTask) :
  (forall j, remaining_at j ts = 0) -> Forall is_done ts.
Proof.
  induction ts as [|t rest IH]; intros H; constructor.
  - specialize (H 0). now destruct t.
  - apply IH. intros j. exact (H (S j)).
Qed.

Lemma remaining_at_bound (j : nat) (ts : list LikeTask) :
  remaining_at j ts <= 2 /\ (List.length ts <= j -> remaining_at j ts = 0).
Proof.
  unfold remaining_at. split.
  - destruct (nth_error ts j) as [[| |]|]; cbn; lia.
  - intros L. apply nth_error_None in L. now rewrite L.
Qed.

(** A schedule that names every request at least twice brings all of them
    to their end. *)
Lemma run_completes (schedule : list nat) (ts : list LikeTask) (d : DB) :
  (forall j, j < List.length ts -> 2 <= count_occ Nat.eq_dec schedule j) ->
  Forall is_done (fst (run schedule ts d)).
Proof.
  intros H. apply nothing_remaining_done. intros j. rewrite run_remaining.
  destruct (remaining_at_bound j ts) as [B Z].
  destruct (Nat.lt_ge_cases j (List.length ts)) as [L|L].
  - specialize (H j L). lia.
  - rewrite (Z L). reflexivity.
Qed.

(** C9.  Likes of one blog by N users, their storage calls interleaved by
    any schedule that lets every request make its two calls: all requests
    come to their end and no update is lost, but each moves the counter the
    wrong way, so the blog's [total_likes] ends N BELOW where it started,
    not N above. *)
Theorem concurrent_likes_count_down
  (d : DB) (id : ObjectId) (b : Blog.t) (likers : list ObjectId)
  (schedule : list nat) :
  findOne (has_blog_oid id) (blogs d) = Some b ->
  (forall j, j < List.length likers ->
             2 <= count_occ Nat.eq_dec schedule j) ->
  Forall is_done (fst (run schedule (likes_from likers id) d))
  /\ likes_of id (snd (run schedule (likes_from likers id) d)) =
     Some (Blog.total_likes (Blog.activity b) - Z.of_nat (List.length likers))%Z.
Proof.
  intros Hb Fair.
  assert (Fin : Forall is_done (fst (run schedule (likes_from likers id) d))).
  { apply run_completes. unfold likes_from. now rewrite length_map. }
  split; [exact Fin|].
  destruct (run_counter id schedule (likes_from likers id) d Hb) as [b' [F L]].
  unfold likes_of. rewrite F. cbn. f_equal. rewrite L.
  rewrite (applied_all_done id Fin), run_requests.
  destruct (likes_from_requested id likers) as [R A]. rewrite R, A. lia.
Qed.

(** ** The theorems at work on the sample database *)



Lemma get_blog_draft_denied_after_count_witness :
  findOne (has_blog_id "Notesy2") (blogs sample_db) = Some draft11
  /\ findOne (has_user_oid 2) (users sample_db) = Some bob
  /\ Blog.draft draft11 = true
  /\ fst (serve (get_blog (GetBlog.mk "Notesy2" None None)) sample_db) =
     mkOutcome (Some access_denied) []
  /\ findOne (has_blog_id "Notesy2")
       (blogs (snd (serve (get_blog (GetBlog.mk "Notesy2" None None)) sample_db)))
     = Some (inc_blog_reads 1 draft11)
  /\ Blog.total_reads (Blog.activity (inc_blog_reads 1 draft11)) = (0 + 1)%Z
  /\ (unique_usernames sample_db ->
      findOne (has_user_oid 2)
        (users (snd (serve (get_blog (GetBlog.mk "Notesy2" None None))
                       sample_db))) = Some (inc_user_reads 1 bob)).
Proof.
  split; [reflexivity|]. split; [reflexivity|]. split; [reflexivity|].
  apply (@get_blog_draft_denied_after_count sample_db
           (GetBlog.mk "Notesy2" None None) draft11 bob);
    reflexivity.
Defined.

Lemma get_blog_returns_count_before_view_witness :
  findOne (has_blog_id "Hello-Worldx1") (blogs sample_db) = Some post10
  /\ exists returned stored,
       response (fst (serve (get_blog (GetBlog.mk "Hello-Worldx1" None None))
                        sample_db)) =
         Some (mkResponse 200 (BlogBody returned))
       /\ findOne (has_blog_id "Hello-Worldx1")
            (blogs (snd (serve (get_blog (GetBlog.mk "Hello-Worldx1" None None))
                           sample_db))) = Some stored
       /\ Blog.total_reads (Blog.activity (doc returned)) = 7%Z
       /\ Blog.total_reads (Blog.activity stored) =
            (Blog.total_reads (Blog.activity (doc returned)) + 1)%Z.
Proof.
  split; [reflexivity|].
  apply (@get_blog_returns_count_before_view sample_db
           (GetBlog.mk "Hello-Worldx1" None None) post10 alice);
    reflexivity.
Defined.

Lemma like_blog_appends_an_entry_witness :
  findOne (has_blog_oid 10) (blogs sample_db) = Some post10
  /\ like_entries 2 10 (snd (serve (like_blog 2 (LikeBlog.mk 10 true)) sample_db))
     = 1
  /\ like_entries 2 10
       (snd (serve (like_blog 2 (LikeBlog.mk 10 true))
          (snd (serve (like_blog 2 (LikeBlog.mk 10 true)) sample_db))))
     = 2.
Proof.
  split; [reflexivity|].
  apply (@like_blog_appends_an_entry sample_db 2 10 post10). reflexivity.
Defined.

Lemma like_then_unlike_is_seen_witness :
  findOne (has_blog_oid 10) (blogs sample_db) = Some post10
  /\ findOne (is_like_of 2 10) (notifications sample_db) = None
  /\ answers_liked
       (fst (serve (isliked_by_user 2 10)
          (snd (serve (like_blog 2 (LikeBlog.mk 10 true)) sample_db))))
     = Some true
  /\ answers_liked
       (fst (serve (isliked_by_user 2 10)
          (snd (serve (like_blog 2 (LikeBlog.mk 10 false))
             (snd (serve (isliked_by_user 2 10)
                (snd (serve (like_blog 2 (LikeBlog.mk 10 true)) sample_db))))))))
     = Some false.
Proof.
  split; [reflexivity|]. split; [reflexivity|].
  apply (@like_then_unlike_is_seen sample_db 2 10 post10); reflexivity.
Defined.

Lemma concurrent_likes_count_down_witness :
  findOne (has_blog_oid 10) (blogs sample_db) = Some post10
  /\ (forall j, j < 2 -> 2 <= count_occ Nat.eq_dec [0; 1; 1; 0] j)
  /\ Forall is_done (fst (run [0; 1; 1; 0] (likes_from [1; 2] 10) sample_db))
  /\ likes_of 10 (snd (run [0; 1; 1; 0] (likes_from [1; 2] 10) sample_db)) =
     Some 3%Z.
Proof.
  assert (Fair : forall j, j < 2 -> 2 <= count_occ Nat.eq_dec [0; 1; 1; 0] j).
  { intros j Hj. destruct j as [|[|j]]; [cbn; lia | cbn; lia | lia]. }
  split; [reflexivity|]. split; [exact Fair|].
  apply (@concurrent_likes_count_down sample_db 10 post10 [1; 2] [0; 1; 1; 0]);
    [reflexivity | exact Fair].
Defined.

(** ** More on collections *)

Section UpdatesAndRemovals.
Variable A : Type.
Implicit Types (p q : A -> bool) (u : A -> A) (l : list A).

Lemma updateOne_unchanged q u l :
  (forall x, u x = x) -> updateOne q u l = l.
Proof.
  intros Hu. induction l as [|x r IH]; simpl; [reflexivity|].
  destruct (q x); [now rewrite Hu | now rewrite IH].
Qed.

Lemma map_updateOne (B : Type) (f : A -> B) q u l :
  (forall x, f (u x) = f x) -> map f (updateOne q u l) = map f l.
Proof.
  intros Hf. induction l as [|x r IH]; simpl; [reflexivity|].
  destruct (q x); simpl; [now rewrite Hf | now rewrite IH].
Qed.

(** A condition that holds of every document survives an update that can
    only weaken it on the others and re-establishes it on the match. *)
Lemma Forall_updateOne (P P' : A -> Prop) q u l :
  (forall x, P x -> P' x) ->
  (forall x, q x = true -> P x -> P' (u x)) ->
  Forall P l -> Forall P' (updateOne q u l).
Proof.
  intros Hw Hu. induction 1 as [|x r Hx Hr IH]; simpl; [constructor|].
  destruct (q x) eqn:E.
  - constructor; [now apply Hu|]. eapply Forall_impl; [exact Hw | exact Hr].
  - constructor; [now apply Hw | exact IH].
Qed.

Lemma deleteOne_incl q l x : In x (deleteOne q l) -> In x l.
Proof.
  induction l as [|y r IH]; simpl; [tauto|].
  destruct (q y); simpl; [tauto|]. intros [->|H]; [now left | right; now apply IH].
Qed.

Lemma Forall_deleteOne (P : A -> Prop) q l :
  Forall P l -> Forall P (deleteOne q l).
Proof.
  rewrite !Forall_forall. intros H x Hx. apply H. eapply deleteOne_incl, Hx.
Qed.

Lemma map_deleteOne_incl (B : Type) (f : A -> B) q l y :
  In y (map f (deleteOne q l)) -> In y (map f l).
Proof.
  rewrite !in_map_iff. intros [x [E Hx]]. exists x. split; [exact E|].
  eapply deleteOne_incl, Hx.
Qed.

Lemma NoDup_map_deleteOne (B : Type) (f : A -> B) q l :
  NoDup (map f l) -> NoDup (map f (deleteOne q l)).
Proof.
  induction l as [|x r IH]; simpl; [trivial|].
  intros ND. inversion ND as [|k ks Hnotin ND']; subst.
  destruct (q x); [exact ND'|]. simpl. constructor; [|now apply IH].
  intros Hin. apply Hnotin. eapply map_deleteOne_incl, Hin.
Qed.

(** A removal takes one matching document away, if there is one. *)
Lemma countDocuments_deleteOne q l :
  countDocuments q (deleteOne q l) = pred (countDocuments q l).
Proof.
  unfold countDocuments. induction l as [|x r IH]; simpl; [reflexivity|].
  destruct (q x) eqn:E; simpl; [reflexivity|]. now rewrite E.
Qed.

Lemma findOne_none_iff_count q l :
  findOne q l = None <-> countDocuments q l = 0.
Proof.
  unfold findOne, countDocuments. induction l as [|x r IH]; simpl; [tauto|].
  destruct (q x); simpl; [split; discriminate | exact IH].
Qed.

Lemma findOne_In q l x : findOne q l = Some x -> In x l /\ q x = true.
Proof. apply find_some. Qed.

Lemma findOne_app_old q l l' x :
  findOne q l = Some x -> findOne q (l ++ l') = Some x.
Proof.
  unfold findOne. induction l as [|y r IH]; simpl; [discriminate|].
  destruct (q y); [trivial | exact IH].
Qed.

(** Through an update that does not move documents in or out of a filter,
    the first match of the filter is the same document, updated or not. *)
Lemma findOne_updateOne_cases p q u l x :
  (forall y, p (u y) = p y) ->
  findOne p l = Some x ->
  findOne p (updateOne q u l) = Some x \/ findOne p (updateOne q u l) = Some (u x).
Proof.
  intros Hp. unfold findOne. induction l as [|y r IH]; simpl; [discriminate|].
  destruct (q y) eqn:Eq; simpl.
  - rewrite Hp. destruct (p y); [|tauto]. intros [= ->]. now right.
  - destruct (p y); [tauto | exact IH].
Qed.

Lemma existsb_false_not_in (B : Type) (f : A -> B) (eqb : B -> B -> bool) l k :
  (forall a b, eqb a b = true <-> a = b) ->
  existsb (fun x => eqb (f x) k) l = false -> ~ In k (map f l).
Proof.
  intros Heq. induction l as [|x r IH]; simpl; [tauto|].
  intros E. apply orb_false_iff in E as [E1 E2].
  intros [H|H]; [|now apply IH].
  apply Heq in H. congruence.
Qed.
End UpdatesAndRemovals.

Lemma NoDup_app_fresh (B : Type) (l : list B) (x : B) :
  NoDup l -> ~ In x l -> NoDup (l ++ [x]).
Proof.
  intros ND Hx. apply NoDup_app; [exact ND | repeat constructor; tauto |].
  intros a Ha [->|[]]. exact (Hx Ha).
Qed.

(** ** Every run of every route *)

(** A view of a blog whose author reference is dangling: the read is counted
    on the blog, then the dereference of [null] is caught. *)
Lemma get_blog_dangling (d : DB) (r : GetBlog.req) (b : Blog.t) :
  findOne (has_blog_id (GetBlog.blogId r)) (blogs d) = Some b ->
  findOne (has_user_oid (Blog.author b)) (users d) = None ->
  serve (get_blog r) d =
  (mkOutcome (Some (mkResponse 500 (ErrObject (null_deref "personal_info")))) [],
   mkDB (users d)
     (updateOne (has_blog_id (GetBlog.blogId r))
        (inc_blog_reads (delta_of_mode (GetBlog.mode r))) (blogs d))
     (notifications d) (next_oid d)).
Proof.
  intros Hb Ha.
  unfold serve, get_blog, catch_, then_, floating, send, throw,
    Blog_findOneAndUpdate_populate, Blog_findOneAndUpdate,
    User_findOneAndUpdate, query, findOneAndUpdate, get_db, resolve, populate.
  unfold findOne in *. cbn. rewrite Hb. cbn. rewrite Ha. reflexivity.
Qed.

Lemma create_blog_refused
  (d : DB) (authorId : ObjectId) (nanoid msg : string) (r : CreateBlog.req) :
  create_blog_rejects r = Some msg ->
  serve (create_blog authorId nanoid r) d =
  (mkOutcome (Some (mkResponse 403 (ErrorBody msg))) [], d).
Proof.
  intros V. run_create. rewrite V. cbn. now destruct d.
Qed.

(** The create path, when the generated identifier is taken: the save is
    rejected, the rejection is caught, and nothing is stored. *)
Lemma create_blog_taken
  (d : DB) (authorId : ObjectId) (nanoid : string) (r : CreateBlog.req) :
  create_blog_rejects r = None ->
  truthy_string (CreateBlog.blogId r) = None ->
  existsb (has_blog_id (slug (CreateBlog.title r) ++ nanoid)%string) (blogs d)
    = true ->
  serve (create_blog authorId nanoid r) d =
  (mkOutcome (Some (mkResponse 500 (ErrorBody "E11000 duplicate key error"))) [],
   d).
Proof.
  intros V B Taken. run_create. rewrite V, B. cbn. rewrite Taken. cbn.
  now destruct d.
Qed.

Lemma route_effect (rq : Request) (d : DB) :
  effect d (snd (serve (route rq) d)).
Proof.
  destruct rq as [authorId nanoid r | r | user r | user id]; cbn [route].
  - destruct (create_blog_rejects r) as [msg|] eqn:V.
    + rewrite (create_blog_refused d authorId nanoid r V). constructor.
    + destruct (truthy_string (CreateBlog.blogId r)) as [blogId|] eqn:B.
      * rewrite (create_blog_update_path d authorId nanoid r V B). constructor.
      * destruct (existsb (has_blog_id (slug (CreateBlog.title r) ++ nanoid)%string)
                    (blogs d)) eqn:Free.
        -- rewrite (create_blog_taken d authorId nanoid r V B Free). constructor.
        -- rewrite (create_blog_create_path d authorId nanoid r V B Free).
           now constructor.
  - destruct (findOne (has_blog_id (GetBlog.blogId r)) (blogs d)) as [b|] eqn:Hb.
    + destruct (findOne (has_user_oid (Blog.author b)) (users d)) as [a|] eqn:Ha.
      * rewrite (get_blog_resolved d r Hb Ha). constructor.
      * rewrite (get_blog_dangling d r Hb Ha). constructor.
    + rewrite (get_blog_not_found d r Hb). constructor.
  - destruct r as [id [|]].
    + destruct (findOne (has_blog_oid id) (blogs d)) as [blog|] eqn:Hb.
      * rewrite (@like_blog_flag_set d user id blog Hb). now constructor.
      * rewrite (like_blog_flag_set_not_found d user id Hb). constructor.
    + rewrite like_blog_flag_clear. constructor.
  - rewrite isliked_by_user_answer. constructor.
Qed.

(** A condition that every effect keeps holds after any run of requests. *)
Lemma serve_all_keeps (Inv : DB -> Prop) :
  (forall d d', effect d d' -> Inv d -> Inv d') ->
  forall (rqs : list Request) (d : DB), Inv d -> Inv (serve_all rqs d).
Proof.
  intros Step. induction rqs as [|rq later IH]; intros d H; [exact H|].
  cbn. apply IH. eapply Step; [apply route_effect | exact H].
Qed.


Lemma effect_keeps_blog_keys (d d' : DB) :
  effect d d' ->
  blog_keys d' = blog_keys d
  \/ exists id author, blog_keys d' = blog_keys d ++ [(id, author)].
Proof.
  unfold blog_keys.
  destruct 1; cbn [blogs];
    try (left; reflexivity);
    try (left; now apply map_updateOne).
  right. rewrite map_app. cbn. eauto.
Qed.

Lemma effect_keeps_object_ids (d d' : DB) :
  effect d d' -> object_ids_fresh d -> object_ids_fresh d'.
Proof.
  unfold object_ids_fresh.
  destruct 1 as [| | |user id blog Hb|user id| |authorId blog_id t de ba c tg dr k Free];
    intros (Fb & Fn & Nb & Nn); cbn [blogs notifications next_oid];
    rewrite ?(map_updateOne Blog._id) by reflexivity;
    try (repeat split; assumption).
  - rewrite map_app. cbn [map Notification._id].
    assert (Hfresh : ~ In (next_oid d) (map Notification._id (notifications d))).
    { intros Hin. rewrite Forall_forall in Fn. specialize (Fn _ Hin). lia. }
    repeat split.
    + eapply Forall_impl; [|exact Fb]. cbn. lia.
    + apply Forall_app. split; [|repeat constructor].
      eapply Forall_impl; [|exact Fn]. cbn. lia.
    + exact Nb.
    + now apply NoDup_app_fresh.
  - repeat split; try assumption.
    + rewrite Forall_forall in *. intros i Hi. apply Fn.
      eapply map_deleteOne_incl, Hi.
    + now apply NoDup_map_deleteOne.
  - rewrite map_app. cbn [map Blog._id].
    assert (Hfresh : ~ In (next_oid d) (map Blog._id (blogs d))).
    { intros Hin. rewrite Forall_forall in Fb. specialize (Fb _ Hin). lia. }
    repeat split.
    + apply Forall_app. split; [|repeat constructor].
      eapply Forall_impl; [|exact Fb]. cbn. lia.
    + eapply Forall_impl; [|exact Fn]. cbn. lia.
    + now apply NoDup_app_fresh.
    + exact Nn.
Qed.

Lemma effect_keeps_blog_ids (d d' : DB) :
  effect d d' -> unique_blog_ids d -> unique_blog_ids d'.
Proof.
  unfold unique_blog_ids.
  destruct 1 as [| | | | | |authorId blog_id t de ba c tg dr k Free];
    intros ND; cbn [blogs];
    rewrite ?(map_updateOne Blog.blog_id) by reflexivity;
    try assumption.
  rewrite map_app. cbn [map Blog.blog_id]. apply NoDup_app_fresh; [exact ND|].
  apply (existsb_false_not_in Blog.blog_id String.eqb (blogs d) blog_id);
    [apply String.eqb_eq | exact Free].
Qed.

Lemma toLowerCase_has_no_capital (s : string) :
  string_forallb (fun c => negb (between 65 90 c)) (toLowerCase s) = true.
Proof.
  unfold toLowerCase. induction s as [|c r IH]; [reflexivity|].
  cbn [map_string string_forallb]. rewrite IH, andb_true_r.
  destruct c as [[] [] [] [] [] [] [] []]; reflexivity.
Qed.

Lemma effect_keeps_tags (d d' : DB) :
  effect d d' -> tags_lowercase d -> tags_lowercase d'.
Proof.
  unfold tags_lowercase. intros E H.
  destruct E; cbn [blogs]; try assumption;
    try (eapply Forall_updateOne; [| |exact H]; cbn; now auto).
  - eapply Forall_updateOne; [| |exact H]; [now auto|].
    intros x _ _. cbn. apply Forall_forall. intros t Ht.
    apply in_map_iff in Ht as [t0 [<- _]]. apply toLowerCase_has_no_capital.
  - apply Forall_app. split; [exact H|]. constructor; [|constructor].
    cbn. apply Forall_forall. intros t0 Ht.
    apply in_map_iff in Ht as [t1 [<- _]]. apply toLowerCase_has_no_capital.
Qed.

Lemma effect_keeps_addresses (d d' : DB) :
  effect d d' -> notifications_addressed d -> notifications_addressed d'.
Proof.
  intros E H. unfold notifications_addressed in *.
  assert (Keys : forall k, In k (blog_keys d) -> In k (blog_keys d')).
  { intros k Hk. destruct (effect_keeps_blog_keys E) as [->|(i & a & ->)];
      [exact Hk | apply in_or_app; now left]. }
  destruct E as [| | |user id blog Hb|user id| |]; cbn [notifications];
    try (eapply Forall_impl; [|exact H]; intros n; apply Keys).
  - apply Forall_app. split.
    + eapply Forall_impl; [|exact H]. intros n. apply Keys.
    + constructor; [|constructor]. cbn. apply Keys.
      apply findOne_In in Hb as [Hin Hid]. unfold has_blog_oid in Hid.
      apply Nat.eqb_eq in Hid. subst id. unfold blog_keys.
      exact (in_map (fun b => (Blog._id b, Blog.author b)) _ _ Hin).
  - apply Forall_deleteOne. eapply Forall_impl; [|exact H].
    intros n. apply Keys.
Qed.

Lemma effect_keeps_blog_lists (d d' : DB) :
  effect d d' -> blog_lists_owned d -> blog_lists_owned d'.
Proof.
  intros E H. unfold blog_lists_owned in *.
  assert (Keys : forall k, In k (blog_keys d) -> In k (blog_keys d')).
  { intros k Hk. destruct (effect_keeps_blog_keys E) as [->|(i & a & ->)];
      [exact Hk | apply in_or_app; now left]. }
  assert (Weak : forall u,
    Forall (fun i => In (i, User._id u) (blog_keys d)) (User.blogs u) ->
    Forall (fun i => In (i, User._id u) (blog_keys d')) (User.blogs u)).
  { intros u Hu. eapply Forall_impl; [|exact Hu]. intros i. apply Keys. }
  destruct E as [| | | | | |authorId blog_id t de ba c tg dr k Free];
    cbn [users];
    try (eapply Forall_impl; [|exact H]; exact Weak);
    try (eapply Forall_updateOne; [exact Weak | | exact H];
         intros x _ Hx; exact (Weak x Hx)).
  eapply Forall_updateOne; [exact Weak | | exact H].
  intros x Qx Hx. cbn. apply Forall_app. split; [exact (Weak x Hx)|].
  constructor; [|constructor].
  unfold has_user_oid in Qx. apply Nat.eqb_eq in Qx. rewrite Qx.
  unfold blog_keys. cbn [blogs]. rewrite map_app. apply in_or_app. right.
  now left.
Qed.

Lemma delta_of_mode_range (mode : option string) :
  (0 <= delta_of_mode mode <= 1)%Z.
Proof.
  unfold delta_of_mode. destruct (loosely_equals mode "edit"); lia.
Qed.

Lemma same_blog_later_refl (b : Blog.t) : same_blog_later b b.
Proof. unfold same_blog_later. repeat split; lia. Qed.

Lemma same_blog_later_trans (a b c : Blog.t) :
  same_blog_later a b -> same_blog_later b c -> same_blog_later a c.
Proof.
  unfold same_blog_later. intros (A1 & A2 & A3 & A4) (B1 & B2 & B3 & B4).
  repeat split; try congruence. lia.
Qed.

Lemma effect_keeps_blog (d d' : DB) (blogId : string) (b : Blog.t) :
  effect d d' ->
  findOne (has_blog_id blogId) (blogs d) = Some b ->
  exists b',
    findOne (has_blog_id blogId) (blogs d') = Some b' /\ same_blog_later b b'.
Proof.
  assert (Upd : forall q u,
    (forall y, has_blog_id blogId (u y) = has_blog_id blogId y) ->
    (forall y, same_blog_later y (u y)) ->
    findOne (has_blog_id blogId) (blogs d) = Some b ->
    exists b',
      findOne (has_blog_id blogId) (updateOne q u (blogs d)) = Some b'
      /\ same_blog_later b b').
  { intros q u Hp Hr Hb.
    destruct (@findOne_updateOne_cases _ (has_blog_id blogId) q u (blogs d) b
                Hp Hb) as [F|F];
      rewrite F; eexists; split; try reflexivity;
      [apply same_blog_later_refl | apply Hr]. }
  destruct 1 as [|id m|id m name| | | |]; intros Hb; cbn [blogs];
    try (exists b; split; [exact Hb | apply same_blog_later_refl]);
    try (apply Upd; [reflexivity | | exact Hb]; intros y;
         unfold same_blog_later; cbn; repeat split; lia).
  - apply Upd; [reflexivity | | exact Hb]. intros y.
    pose proof (delta_of_mode_range m).
    unfold same_blog_later; cbn; repeat split; lia.
  - apply Upd; [reflexivity | | exact Hb]. intros y.
    pose proof (delta_of_mode_range m).
    unfold same_blog_later; cbn; repeat split; lia.
  - exists b. split; [now apply findOne_app_old | apply same_blog_later_refl].
Qed.

(** ** What the store keeps through every run of requests *)


(** X2.  Every tag in the store is free of the letters A to Z after any run
    of requests, if it was before: both paths of [/create-blog] lowercase
    the tags they store and no other route touches them. *)
Theorem tags_stay_lowercase (rqs : list Request) (d : DB) :
  tags_lowercase d -> tags_lowercase (serve_all rqs d).
Proof.
  apply serve_all_keeps. intros a b. apply effect_keeps_tags.
Qed.

(** X3.  After any run of requests every notification is still about a blog
    of the store and addressed to that blog's author: a like is addressed
    to the author of the blog it found, and no route removes a blog or
    changes its identifier or author. *)
Theorem notifications_stay_addressed (rqs : list Request) (d : DB) :
  notifications_addressed d -> notifications_addressed (serve_all rqs d).
Proof.
  apply serve_all_keeps. intros a b. apply effect_keeps_addresses.
Qed.

(** X4.  After any run of requests every entry of every user's [blogs] list
    is still a blog of the store written by that user: a creation stores the
    blog under the caller and pushes its identifier to the caller's list. *)
Theorem blog_lists_stay_owned (rqs : list Request) (d : DB) :
  blog_lists_owned d -> blog_lists_owned (serve_all rqs d).
Proof.
  apply serve_all_keeps. intros a b. apply effect_keeps_blog_lists.
Qed.

(** X5.  A blog that can be found by its [blog_id] can be found after any
    run of requests, with the same [_id], [blog_id] and author, and with a
    read counter that is not below what it was: no route deletes a blog,
    moves it to another author or takes reads away. *)
Theorem blogs_are_kept (rqs : list Request) :
  forall (d : DB) (blogId : string) (b : Blog.t),
  findOne (has_blog_id blogId) (blogs d) = Some b ->
  exists b',
    findOne (has_blog_id blogId) (blogs (serve_all rqs d)) = Some b'
    /\ same_blog_later b b'.
Proof.
  induction rqs as [|rq later IH]; intros d blogId b Hb.
  - exists b. split; [exact Hb | apply same_blog_later_refl].
  - cbn [serve_all].
    destruct (effect_keeps_blog blogId (route_effect rq d) Hb) as [b1 [F1 R1]].
    destruct (IH _ _ _ F1) as [b2 [F2 R2]].
    exists b2. split; [exact F2 | exact (same_blog_later_trans R1 R2)].
Qed.

(** ** Answers *)



Section CastingFacts.
Variable castObjectId : string -> option ObjectId.
Variable cast_error : string -> Err.

End CastingFacts.

Example unlike_with_a_malformed_id :
  serve (route_posted sample_cast sample_cast_error
           (PostedLikeBlog 2 "not-an-id" false)) sample_db
  = (mkOutcome None [sample_cast_error "not-an-id"], sample_db)
  /\ fst (serve (route_posted sample_cast sample_cast_error
                   (PostedIsLikedByUser 2 "not-an-id")) sample_db)
     = mkOutcome
         (Some (mkResponse 500
                  (ErrorBody "Cast to ObjectId failed for value not-an-id")))
         []
  /\ fst (serve (route_posted sample_cast sample_cast_error
                   (PostedLikeBlog 2 "00000000000000000000000a" true)) sample_db)
     = mkOutcome (Some (mkResponse 200 (LikedBody true))) [].
Proof. repeat split; reflexivity. Qed.

(** X7.  [/get-blog] answers with status 500 or with status 200 and a blog
    of the store that has the requested [blog_id]; the blog it returns is
    a draft only if the request set the draft flag. *)
Theorem get_blog_shows_no_draft_unasked
  (d : DB) (r : GetBlog.req) (resp : Response) :
  response (fst (serve (get_blog r) d)) = Some resp ->
  status resp = 500
  \/ exists shown,
       resp = mkResponse 200 (BlogBody shown)
       /\ In (doc shown) (blogs d)
       /\ Blog.blog_id (doc shown) = GetBlog.blogId r
       /\ (Blog.draft (doc shown) = true -> truthy (GetBlog.draft r) = true).
Proof.
  destruct (findOne (has_blog_id (GetBlog.blogId r)) (blogs d)) as [b|] eqn:Hb.
  - destruct (findOne (has_user_oid (Blog.author b)) (users d)) as [a|] eqn:Ha.
    + rewrite (get_blog_resolved d r Hb Ha). cbn [fst response].
      destruct (Blog.draft b && negb (truthy (GetBlog.draft r))) eqn:Vis;
        intros [= <-]; [now left|].
      right. eexists. split; [reflexivity|]. cbn [doc].
      apply findOne_In in Hb as [Hin Hid]. split; [exact Hin|].
      split; [now apply String.eqb_eq|].
      intros Dr. rewrite Dr in Vis.
      destruct (truthy (GetBlog.draft r)); [reflexivity | discriminate Vis].
    + rewrite (get_blog_dangling d r Hb Ha). intros [= <-]. now left.
  - rewrite (get_blog_not_found d r Hb). intros [= <-]. now left.
Qed.

(** X8.  A fetch in edit mode changes nothing in the store, whether the
    blog resolves or not. *)
Theorem get_blog_edit_changes_nothing (d : DB) (r : GetBlog.req) :
  loosely_equals (GetBlog.mode r) "edit" = true ->
  snd (serve (get_blog r) d) = d.
Proof.
  intros M.
  assert (D : delta_of_mode (GetBlog.mode r) = 0%Z)
    by (unfold delta_of_mode; now rewrite M).
  destruct (findOne (has_blog_id (GetBlog.blogId r)) (blogs d)) as [b|] eqn:Hb.
  - destruct (findOne (has_user_oid (Blog.author b)) (users d)) as [a|] eqn:Ha.
    + rewrite (get_blog_resolved d r Hb Ha). cbn [snd]. rewrite D.
      rewrite !updateOne_unchanged
        by (intros; first [apply inc_blog_reads_0 | apply inc_user_reads_0]).
      now destruct d.
    + rewrite (get_blog_dangling d r Hb Ha). cbn [snd]. rewrite D.
      rewrite updateOne_unchanged by apply inc_blog_reads_0. now destruct d.
  - now rewrite (get_blog_not_found d r Hb).
Qed.

(** X9.  An update that names a blog which is not in the store is answered
    with status 200 and the [blogId] it was given, and stores nothing. *)
Theorem update_of_unknown_blog_is_silent
  (d : DB) (authorId : ObjectId) (nanoid blogId : string) (r : CreateBlog.req) :
  create_blog_rejects r = None ->
  truthy_string (CreateBlog.blogId r) = Some blogId ->
  findOne (has_blog_id blogId) (blogs d) = None ->
  serve (create_blog authorId nanoid r) d =
  (mkOutcome (Some (mkResponse 200 (IdBody blogId))) [], d).
Proof.
  intros V B Hb. rewrite (create_blog_update_path d authorId nanoid r V B).
  rewrite (updateOne_no_match _ _ _ Hb). now destruct d.
Qed.

(** X10.  On the update path the caller plays no part: the answer and the
    store are the same whoever sends the request, also when the blog was
    written by somebody else. *)
Theorem update_ignores_the_caller
  (d : DB) (caller other : ObjectId) (nanoid nanoid' blogId : string)
  (r : CreateBlog.req) :
  truthy_string (CreateBlog.blogId r) = Some blogId ->
  serve (create_blog caller nanoid r) d = serve (create_blog other nanoid' r) d.
Proof.
  intros B. destruct (create_blog_rejects r) as [msg|] eqn:V.
  - now rewrite !(@create_blog_refused d _ _ msg r V).
  - now rewrite !(@create_blog_update_path d _ _ blogId r V B).
Qed.

(** X11.  An unlike removes one like entry of the caller on the blog when
    there is one, and none otherwise: where a pair has several entries, it
    has one fewer afterwards, not none. *)
Theorem unlike_removes_one_entry (d : DB) (user id : ObjectId) :
  like_entries user id (snd (serve (like_blog user (LikeBlog.mk id false)) d)) =
  pred (like_entries user id d).
Proof.
  rewrite like_blog_flag_clear. unfold like_entries. cbn [snd notifications].
  apply countDocuments_deleteOne.
Qed.

(** X12.  [/isliked-by-user] changes nothing in the store, and its answer
    is truthy exactly when the caller has at least one like entry on the
    blog. *)
Theorem isliked_by_user_counts_entries (d : DB) (user id : ObjectId) :
  snd (serve (isliked_by_user user id) d) = d
  /\ answers_liked (fst (serve (isliked_by_user user id) d)) =
     Some (negb (Nat.eqb (like_entries user id d) 0)).
Proof.
  rewrite isliked_by_user_answer. split; [reflexivity|].
  unfold answers_liked, like_entries. cbn [fst response].
  destruct (findOne (is_like_of user id) (notifications d)) as [n|] eqn:F; cbn.
  - destruct (countDocuments (is_like_of user id) (notifications d)) eqn:C;
      [|reflexivity].
    apply findOne_none_iff_count in C. congruence.
  - apply findOne_none_iff_count in F. now rewrite F.
Qed.

(** ** The slug of a title *)

Ltac each_character c :=
  destruct c as [[] [] [] [] [] [] [] []]; reflexivity.

Lemma blank_or_alnum_not_space (c : ascii) :
  implb (is_alnum c || Ascii.eqb c " ") (is_space c || is_alnum c) = true.
Proof. each_character c. Qed.

Lemma alnum_is_no_hyphen_no_space (c : ascii) :
  implb (is_alnum c) (negb (is_hyphen c) && negb (is_space c)) = true.
Proof. each_character c. Qed.

Lemma url_safe_is_no_space (c : ascii) :
  implb (url_safe c) (negb (is_space c)) = true.
Proof. each_character c. Qed.

Lemma blank_non_alnum_shape (s : string) :
  string_forallb (fun c => is_alnum c || Ascii.eqb c " ") (blank_non_alnum s)
    = true
  /\ String.length (blank_non_alnum s) = String.length s.
Proof.
  unfold blank_non_alnum. induction s as [|c r [IH1 IH2]]; [now split|].
  cbn [map_string string_forallb String.length]. rewrite IH1, IH2. split; [|reflexivity].
  destruct (is_alnum c) eqn:E; [now rewrite E | reflexivity].
Qed.

Lemma hyphenate_shape (s : string) :
  string_forallb (fun c => is_alnum c || Ascii.eqb c " ") s = true ->
  forall in_run : bool,
    string_forallb url_safe (hyphenate in_run s) = true
    /\ no_hyphen_pair in_run (hyphenate in_run s) = true
    /\ String.length (hyphenate in_run s) <= String.length s.
Proof.
  induction s as [|c r IH]; intros H in_run; [split; [reflexivity | split; [reflexivity | constructor]]|].
  cbn [string_forallb] in H. apply andb_true_iff in H as [Hc Hr].
  specialize (IH Hr). cbn [hyphenate String.length].
  pose proof (blank_or_alnum_not_space c) as B. rewrite Hc in B. cbn in B.
  destruct (is_space c) eqn:Sp.
  - destruct in_run.
    + destruct (IH true) as (U & N & L). split; [exact U | split; [exact N | lia]].
    + destruct (IH true) as (U & N & L).
      cbn [string_forallb no_hyphen_pair String.length]. rewrite U, N.
      split; [reflexivity | split; [reflexivity | lia]].
  - cbn in B. pose proof (alnum_is_no_hyphen_no_space c) as A.
    rewrite B in A. cbn in A. apply andb_true_iff in A as [Hy _].
    apply negb_true_iff in Hy.
    destruct (IH false) as (U & N & L).
    cbn [string_forallb no_hyphen_pair String.length]. unfold url_safe at 1.
    rewrite B, Hy, U, N. split; [reflexivity | split; [reflexivity | lia]].
Qed.

Lemma dropWhile_nothing (p : ascii -> bool) (l : list ascii) :
  Forall (fun c => p c = false) l -> dropWhile p l = l.
Proof.
  destruct 1 as [|c r Hc Hr]; [reflexivity|]. cbn. now rewrite Hc.
Qed.

Lemma string_forallb_Forall (p : ascii -> bool) (s : string) :
  string_forallb p s = true ->
  Forall (fun c => p c = true) (list_ascii_of_string s).
Proof.
  induction s as [|c r IH]; cbn; [constructor|].
  intros H. apply andb_true_iff in H as [Hc Hr]. constructor; auto.
Qed.

(** [trim] leaves a string without white space as it is. *)
Lemma trim_without_space (s : string) :
  string_forallb (fun c => negb (is_space c)) s = true -> trim s = s.
Proof.
  intros H. apply string_forallb_Forall in H.
  assert (F : Forall (fun c => is_space c = false) (list_ascii_of_string s)).
  { eapply Forall_impl; [|exact H]. intros c. apply negb_true_iff. }
  unfold trim. rewrite (@dropWhile_nothing is_space _ F).
  rewrite (@dropWhile_nothing is_space _ (Forall_rev F)).
  rewrite rev_involutive. apply string_of_list_ascii_of_string.
Qed.

Lemma string_forallb_impl (p q : ascii -> bool) (s : string) :
  (forall c, implb (p c) (q c) = true) ->
  string_forallb p s = true -> string_forallb q s = true.
Proof.
  intros I. induction s as [|c r IH]; cbn; [trivial|].
  intros H. apply andb_true_iff in H as [Hc Hr]. rewrite (IH Hr), andb_true_r.
  specialize (I c). now rewrite Hc in I.
Qed.

(** X13.  The slug of a title is made of letters, digits and hyphens only,
    has no two hyphens in a row and is no longer than the title. *)
Theorem slug_is_url_safe (title : string) :
  string_forallb url_safe (slug title) = true
  /\ no_hyphen_pair false (slug title) = true
  /\ String.length (slug title) <= String.length title.
Proof.
  destruct (blank_non_alnum_shape title) as [B L].
  destruct (@hyphenate_shape _ B false) as (U & N & Len).
  unfold slug. rewrite trim_without_space.
  - split; [exact U | split; [exact N | lia]].
  - exact (@string_forallb_impl url_safe _ _ url_safe_is_no_space U).
Qed.

(** ** Pages *)

Lemma firstn_add_skipn (A : Type) (a b : nat) (l : list A) :
  firstn (a + b) l = firstn a l ++ firstn b (skipn a l).
Proof.
  revert l. induction a as [|a IH]; intros l; [reflexivity|].
  destruct l as [|x r]; cbn; [now rewrite firstn_nil | now rewrite IH].
Qed.

(** The pages 1 to [n] of [k] documents each, put end to end, are the first
    [n * k] documents. *)
Lemma pages_concat (A : Type) (k n : nat) (l : list A) :
  List.concat (map (fun p => firstn k (skipn ((p - 1) * k) l)) (seq 1 n)) =
  firstn (n * k) l.
Proof.
  induction n as [|n IH]; [reflexivity|].
  rewrite seq_S, map_app, concat_app, IH. cbn [map List.concat].
  rewrite app_nil_r. replace (1 + n - 1) with n by lia.
  replace (S n * k) with (n * k + k) by lia. now rewrite firstn_add_skipn.
Qed.

Lemma In_firstn (A : Type) (n : nat) (l : list A) (x : A) :
  In x (firstn n l) -> In x l.
Proof.
  intros H. rewrite <- (firstn_skipn n l). apply in_or_app. now left.
Qed.

Lemma In_skipn (A : Type) (n : nat) (l : list A) (x : A) :
  In x (skipn n l) -> In x l.
Proof.
  intros H. rewrite <- (firstn_skipn n l). apply in_or_app. now right.
Qed.

Lemma filter_split_length (A : Type) (p q : A -> bool) (l : list A) :
  List.length (filter p l) =
  List.length (filter (fun x => p x && q x) l)
  + List.length (filter (fun x => p x && negb (q x)) l).
Proof.
  induction l as [|x r IH]; [reflexivity|]. cbn.
  destruct (p x), (q x); cbn; lia.
Qed.

Lemma filter_nothing (A : Type) (q : A -> bool) (l : list A) :
  (forall x, In x l -> q x = false) -> filter q l = [].
Proof.
  induction l as [|x r IH]; intros H; [reflexivity|]. cbn.
  rewrite (H x (or_introl eq_refl)). apply IH. intros y Hy. apply H. now right.
Qed.

Section ListingFacts.
Variable by_publishedAt : list Blog.t -> list Blog.t.
Variable by_trend : list Blog.t -> list Blog.t.
Variable title_regexp : string -> option (string -> bool).
Variable skip_error : Err.

(** Sorting reorders and does nothing else. *)
Hypothesis by_publishedAt_permutes : forall l, Permutation (by_publishedAt l) l.
Hypothesis by_trend_permutes : forall l, Permutation (by_trend l) l.

Lemma skip_limit_page (A : Type) (p k : nat) (l : list A) :
  1 <= p -> 1 <= k ->
  skip_limit skip_error ((Z.of_nat p - 1) * Z.of_nat k) k l =
  Fulfilled (firstn k (skipn ((p - 1) * k) l)).
Proof.
  intros Hp Hk. unfold skip_limit.
  destruct ((Z.of_nat p - 1) * Z.of_nat k <? 0)%Z eqn:E.
  - apply Z.ltb_lt in E. nia.
  - replace (Z.to_nat ((Z.of_nat p - 1) * Z.of_nat k)) with ((p - 1) * k) by nia.
    destruct k; [lia | reflexivity].
Qed.

Lemma skip_limit_within (A : Type) (n : Z) (m : nat) (l found : list A) (x : A) :
  skip_limit skip_error n m l = Fulfilled found -> In x found -> In x l.
Proof.
  unfold skip_limit. destruct (n <? 0)%Z; [discriminate|].
  intros [= <-] Hx. destruct m.
  - eapply In_skipn, Hx.
  - apply In_firstn in Hx. eapply In_skipn, Hx.
Qed.

Lemma skip_limit_length (A : Type) (n : Z) (m : nat) (l found : list A) :
  1 <= m ->
  skip_limit skip_error n m l = Fulfilled found -> List.length found <= m.
Proof.
  unfold skip_limit. destruct (n <? 0)%Z; [discriminate|].
  intros Hm [= <-]. destruct m; [lia|]. apply firstn_le_length.
Qed.

Lemma latest_blogs_page (p : nat) (d : DB) :
  1 <= p ->
  latest_blogs by_publishedAt skip_error (Z.of_nat p) d =
  mkListing 200
    (BlogsBody
       (map (card d)
          (firstn 3 (skipn ((p - 1) * 3)
             (by_publishedAt (filter is_published (blogs d))))))).
Proof.
  intros Hp. unfold latest_blogs.
  now rewrite (skip_limit_page (by_publishedAt (filter is_published (blogs d))) Hp)
    by lia.
Qed.

Lemma map_pages (d : DB) (k n : nat) (l : list Blog.t) :
  List.concat (map (fun p => map (card d) (firstn k (skipn ((p - 1) * k) l))) (seq 1 n))
  = map (card d) (firstn (n * k) l).
Proof.
  rewrite <- pages_concat, concat_map, map_map. reflexivity.
Qed.

(** X14.  The pages 1 to [n] of [/latest-blogs], put end to end, hold every
    published blog exactly once and nothing else, as soon as [n] pages of
    three can hold them all; and their number is the [totalDocs] that
    [/all-latest-blogs-count] answers. *)
Theorem latest_pages_cover_the_published (n : nat) (d : DB) :
  countDocuments is_published (blogs d) <= 3 * n ->
  Permutation
    (List.concat
       (map (fun p => cards_of (latest_blogs by_publishedAt skip_error
                                   (Z.of_nat p) d))
          (seq 1 n)))
    (map (card d) (filter is_published (blogs d)))
  /\ totalDocs_of (all_latest_blogs_count d) =
     Some (List.length
             (List.concat
                (map (fun p => cards_of (latest_blogs by_publishedAt skip_error
                                           (Z.of_nat p) d))
                   (seq 1 n)))).
Proof.
  intros Enough. unfold countDocuments in Enough.
  set (sorted := by_publishedAt (filter is_published (blogs d))).
  assert (Len : List.length sorted = List.length (filter is_published (blogs d)))
    by (apply Permutation_length, by_publishedAt_permutes).
  assert (E : List.concat
       (map (fun p => cards_of (latest_blogs by_publishedAt skip_error
                                   (Z.of_nat p) d)) (seq 1 n))
     = map (card d) sorted).
  { rewrite (map_ext_in _
       (fun p => map (card d) (firstn 3 (skipn ((p - 1) * 3) sorted)))).
    - rewrite map_pages. now rewrite firstn_all2 by lia.
    - intros p Hp. apply in_seq in Hp.
      now rewrite latest_blogs_page by lia. }
  rewrite E. split.
  - apply Permutation_map, by_publishedAt_permutes.
  - cbn. unfold countDocuments. now rewrite length_map, Len.
Qed.

(** X15.  Whatever the page, [/latest-blogs] lists at most three blogs, and
    [/trending-blogs] at most five; every one of them is a blog of the
    store that is not a draft. *)
Theorem listings_show_no_draft (page : Z) (d : DB) :
  (List.length (cards_of (latest_blogs by_publishedAt skip_error page d)) <= 3
   /\ forall c,
        In c (cards_of (latest_blogs by_publishedAt skip_error page d)) ->
        exists b, In b (blogs d) /\ Blog.draft b = false /\ c = card d b)
  /\ exists listed,
       trending_blogs by_trend d = mkListing 200 (TrendingBody listed)
       /\ List.length listed <= 5
       /\ forall t,
            In t listed ->
            exists b, In b (blogs d) /\ Blog.draft b = false /\ t = trend d b.
Proof.
  assert (Pub : forall sort : list Blog.t -> list Blog.t,
    (forall l, Permutation (sort l) l) ->
    forall b, In b (sort (filter is_published (blogs d))) ->
    In b (blogs d) /\ Blog.draft b = false).
  { intros sort P b Hb. apply (Permutation_in _ (P _)) in Hb.
    apply filter_In in Hb as [Hin Hp]. split; [exact Hin|].
    unfold is_published in Hp. now apply negb_true_iff in Hp. }
  split.
  - unfold latest_blogs.
    destruct (skip_limit skip_error ((page - 1) * Z.of_nat 3) 3
                (by_publishedAt (filter is_published (blogs d))))
      as [found|err] eqn:Sk; cbn.
    + split.
      * rewrite length_map. eapply skip_limit_length; [|exact Sk]. lia.
      * intros c Hc. apply in_map_iff in Hc as [b [<- Hb]].
        apply (@skip_limit_within _ _ _ _ _ b Sk) in Hb.
        destruct (Pub _ by_publishedAt_permutes b Hb) as [Hin Hd]. eauto.
    + split; [lia | contradiction].
  - eexists. split; [reflexivity|]. split.
    + rewrite length_map. apply firstn_le_length.
    + intros t Ht. apply in_map_iff in Ht as [b [<- Hb]].
      apply In_firstn in Hb.
      destruct (Pub _ by_trend_permutes b Hb) as [Hin Hd]. eauto.
Qed.
End ListingFacts.

Section SearchFacts.
Variable by_publishedAt : list Blog.t -> list Blog.t.
Variable title_regexp : string -> option (string -> bool).
Variable skip_error : Err.

Hypothesis by_publishedAt_permutes : forall l, Permutation (by_publishedAt l) l.

(** The cards of a search are cards of blogs that its [findQuery] matches. *)
Lemma search_blogs_cards (r : SearchBlogs.req) (d : DB) (c : Card.t) :
  In c (cards_of (search_blogs by_publishedAt title_regexp skip_error r d)) ->
  search_findQuery title_regexp r <> Threw
  /\ exists b,
       In b (matches (search_findQuery title_regexp r) (blogs d))
       /\ c = card d b.
Proof.
  unfold search_blogs.
  set (l := by_publishedAt (matches (search_findQuery title_regexp r) (blogs d))).
  set (n := ((SearchBlogs.page r - 1)
             * Z.of_nat (maxLimit_of (SearchBlogs.limit r)))%Z).
  assert (K : In c (cards_of
                 match skip_limit skip_error n (maxLimit_of (SearchBlogs.limit r)) l with
                 | Fulfilled found => mkListing 200 (BlogsBody (map (card d) found))
                 | Rejected err => mkListing 500 (ListingError (err_message err))
                 end) ->
              exists b, In b l /\ c = card d b).
  { destruct (skip_limit skip_error n (maxLimit_of (SearchBlogs.limit r)) l)
      as [found|err] eqn:Sk; cbn; [|contradiction].
    intros Hc. apply in_map_iff in Hc as [b [<- Hb]].
    exists b. split; [|reflexivity].
    exact (@skip_limit_within _ _ _ _ _ _ b Sk Hb). }
  intros H.
  assert (H' : search_findQuery title_regexp r <> Threw
               /\ exists b, In b l /\ c = card d b).
  { destruct (search_findQuery title_regexp r);
      [split; [discriminate | apply K, H]
      | split; [discriminate | apply K, H]
      | contradiction]. }
  destruct H' as [NT [b [Hb ->]]]. split; [exact NT|].
  exists b. split; [|reflexivity].
  exact (Permutation_in _ (by_publishedAt_permutes _) Hb).
Qed.

(** X16.  A search by tag, by title or by author lists no draft; a search
    by tag lists only blogs that carry the tag, and never the blog named by
    [eliminateBlog]. *)
Theorem search_with_a_criterion_shows_no_draft
  (r : SearchBlogs.req) (d : DB) (c : Card.t) :
  search_findQuery title_regexp r <> Undefined ->
  In c (cards_of (search_blogs by_publishedAt title_regexp skip_error r d)) ->
  exists b,
    In b (blogs d) /\ c = card d b /\ Blog.draft b = false
    /\ (forall tag,
          truthy_string (SearchBlogs.tag r) = Some tag ->
          In tag (Blog.tags b)
          /\ forall eliminated,
               SearchBlogs.eliminateBlog r = Some eliminated ->
               Blog.blog_id b <> eliminated).
Proof.
  intros Given Hc. destruct (search_blogs_cards _ _ _ Hc) as [NT [b [Hb ->]]].
  exists b. revert Given NT Hb. unfold search_findQuery.
  destruct (truthy_string (SearchBlogs.tag r)) as [tag|] eqn:T.
  - intros _ _ Hb. cbn in Hb. apply filter_In in Hb as [Hin Hq].
    apply andb_true_iff in Hq as [Hq He]. apply andb_true_iff in Hq as [Ht Hp].
    split; [exact Hin|]. split; [reflexivity|].
    split; [now apply negb_true_iff in Hp|].
    intros tag' [= <-]. split.
    + unfold tagged in Ht. apply existsb_exists in Ht as [t [Hin' Et]].
      apply String.eqb_eq in Et. now subst t.
    + intros eliminated E. rewrite E in He.
      cbn in He. apply negb_true_iff in He. unfold has_blog_id in He.
      now apply String.eqb_neq in He.
  - destruct (truthy_string (SearchBlogs.query r)) as [query|].
    + destruct (title_regexp query) as [test|].
      * intros _ _ Hb. cbn in Hb. apply filter_In in Hb as [Hin Hq].
        apply andb_true_iff in Hq as [_ Hp].
        split; [exact Hin|]. split; [reflexivity|].
        split; [now apply negb_true_iff in Hp | discriminate].
      * intros _ NT. now contradiction NT.
    + destruct (SearchBlogs.author r) as [author|].
      * intros _ _ Hb. cbn in Hb. apply filter_In in Hb as [Hin Hq].
        apply andb_true_iff in Hq as [_ Hp].
        split; [exact Hin|]. split; [reflexivity|].
        split; [now apply negb_true_iff in Hp | discriminate].
      * intros Given. now contradiction Given.
Qed.
End SearchFacts.

Lemma maxLimit_of_positive (limit : option nat) : 1 <= maxLimit_of limit.
Proof. destruct limit as [[|n]|]; cbn; lia. Qed.

Section PagingFacts.
Variable by_publishedAt : list Blog.t -> list Blog.t.
Variable title_regexp : string -> option (string -> bool).
Variable skip_error : Err.

Hypothesis by_publishedAt_permutes : forall l, Permutation (by_publishedAt l) l.

(** X17.  The edges of paging in [/latest-blogs]: a page number below 1
    asks the store for a negative [skip], and the answer is status 500 with
    the store's message; a page past the last one is answered with status
    200 and an empty list. *)
Theorem latest_blogs_outside_the_pages (page : Z) (d : DB) :
  ((page < 1)%Z ->
   latest_blogs by_publishedAt skip_error page d =
   mkListing 500 (ListingError (err_message skip_error)))
  /\ ((1 <= page)%Z ->
      (Z.of_nat (countDocuments is_published (blogs d)) <= 3 * (page - 1))%Z ->
      latest_blogs by_publishedAt skip_error page d =
      mkListing 200 (BlogsBody [])).
Proof.
  unfold latest_blogs, skip_limit. split.
  - intros Low. destruct ((page - 1) * Z.of_nat 3 <? 0)%Z eqn:E; [reflexivity|].
    apply Z.ltb_ge in E. lia.
  - intros High Past. destruct ((page - 1) * Z.of_nat 3 <? 0)%Z eqn:E.
    + apply Z.ltb_lt in E. lia.
    + rewrite skipn_all2; [reflexivity|].
      rewrite (Permutation_length (by_publishedAt_permutes _)).
      unfold countDocuments in Past. lia.
Qed.

(** X18.  For a tag, [/search-blogs-count] counts the published blogs that
    carry the tag, the one named by [eliminateBlog] included, while
    [/search-blogs] leaves that one out: with a limit that holds them all,
    the cards of page 1 and the eliminated blogs together make up
    [totalDocs]. *)
Theorem search_count_includes_the_eliminated
  (d : DB) (tag query : option string) (author : option ObjectId)
  (eliminateBlog : option string) (t : string) (limit : nat) :
  truthy_string tag = Some t ->
  1 <= limit ->
  countDocuments (fun b => tagged t b && is_published b) (blogs d) <= limit ->
  totalDocs_of
    (search_blogs_count title_regexp (SearchBlogsCount.mk tag query author) d)
  = Some
      (List.length
         (cards_of
            (search_blogs by_publishedAt title_regexp skip_error
               (SearchBlogs.mk tag 1 query author (Some limit) eliminateBlog) d))
       + countDocuments
           (fun b => tagged t b && is_published b
                     && negb (not_eliminated eliminateBlog b))
           (blogs d)).
Proof.
  intros T L Enough.
  unfold search_blogs_count, count_findQuery, search_blogs, search_findQuery.
  cbn [SearchBlogsCount.tag SearchBlogs.tag SearchBlogs.page SearchBlogs.limit
       SearchBlogs.eliminateBlog].
  rewrite T. cbn [matches totalDocs_of listing_body].
  replace (maxLimit_of (Some limit)) with limit by (destruct limit; [lia | reflexivity]).
  unfold skip_limit. replace ((1 - 1) * Z.of_nat limit)%Z with 0%Z by lia.
  cbn [Z.ltb Z.compare Z.to_nat skipn].
  set (sorted := by_publishedAt _).
  assert (Len : List.length sorted =
                List.length
                  (filter (fun b => tagged t b && is_published b
                                    && not_eliminated eliminateBlog b) (blogs d)))
    by apply Permutation_length, by_publishedAt_permutes.
  pose proof (filter_split_length (fun b => tagged t b && is_published b)
                (not_eliminated eliminateBlog) (blogs d)) as Split.
  cbn beta in Split. unfold countDocuments in *.
  destruct limit as [|m]; [lia|].
  rewrite firstn_all2 by lia.
  cbn [cards_of listing_body]. rewrite length_map, Len. f_equal. lia.
Qed.

(** X19.  Tags are compared as they are written: in a store whose tags are
    free of capital letters, a search for a tag that has one lists nothing
    and counts nothing. *)
Theorem search_for_a_capital_tag_finds_nothing
  (d : DB) (r : SearchBlogs.req) (t : string) :
  tags_lowercase d ->
  truthy_string (SearchBlogs.tag r) = Some t ->
  string_forallb (fun c => negb (between 65 90 c)) t = false ->
  cards_of (search_blogs by_publishedAt title_regexp skip_error r d) = []
  /\ totalDocs_of
       (search_blogs_count title_regexp
          (SearchBlogsCount.mk (SearchBlogs.tag r) (SearchBlogs.query r)
             (SearchBlogs.author r)) d) = Some 0.
Proof.
  intros Low T Cap.
  assert (No : forall b, In b (blogs d) -> tagged t b = false).
  { intros b Hb. unfold tags_lowercase in Low. rewrite Forall_forall in Low.
    specialize (Low b Hb). rewrite Forall_forall in Low.
    destruct (tagged t b) eqn:E; [|reflexivity].
    unfold tagged in E. apply existsb_exists in E as [t' [Hin Et]].
    apply String.eqb_eq in Et. subst t'. specialize (Low t Hin). congruence. }
  split.
  - destruct (cards_of (search_blogs by_publishedAt title_regexp skip_error r d))
      as [|c rest] eqn:E; [reflexivity|].
    assert (Hc : In c (cards_of
                   (search_blogs by_publishedAt title_regexp skip_error r d)))
      by (rewrite E; now left).
    destruct (@search_blogs_cards by_publishedAt title_regexp skip_error
                by_publishedAt_permutes r d c Hc) as [_ [b [Hb _]]].
    unfold search_findQuery in Hb. rewrite T in Hb. cbn in Hb.
    apply filter_In in Hb as [Hin Hq]. rewrite (No b Hin) in Hq. discriminate.
  - unfold search_blogs_count, count_findQuery.
    cbn [SearchBlogsCount.tag]. rewrite T. cbn [matches totalDocs_of listing_body].
    rewrite filter_nothing; [reflexivity|].
    intros b Hb. now rewrite (No b Hb).
Qed.

(** X20.  A search that names no tag, no title and no author is a search of
    the whole collection: every blog of the store, drafts included, is
    listed on one of its pages. *)
Theorem search_without_criterion_lists_every_blog
  (d : DB) (tag query : option string) (limit : option nat)
  (eliminateBlog : option string) (b : Blog.t) :
  truthy_string tag = None ->
  truthy_string query = None ->
  In b (blogs d) ->
  exists p : nat,
    1 <= p
    /\ In (card d b)
         (cards_of
            (search_blogs by_publishedAt title_regexp skip_error
               (SearchBlogs.mk tag (Z.of_nat p) query None limit eliminateBlog)
               d)).
Proof.
  intros T Q Hb.
  set (k := maxLimit_of limit). pose proof (maxLimit_of_positive limit) as Hk.
  set (l := by_publishedAt (blogs d)).
  assert (Hl : In b l)
    by (apply (Permutation_in _ (Permutation_sym (by_publishedAt_permutes _)) Hb)).
  assert (Page : forall p, 1 <= p ->
    cards_of
      (search_blogs by_publishedAt title_regexp skip_error
         (SearchBlogs.mk tag (Z.of_nat p) query None limit eliminateBlog) d)
    = map (card d) (firstn k (skipn ((p - 1) * k) l))).
  { intros p Hp. unfold search_blogs, search_findQuery.
    cbn [SearchBlogs.tag SearchBlogs.query SearchBlogs.author SearchBlogs.page
         SearchBlogs.limit].
    rewrite T, Q. cbn [matches].
    now rewrite (skip_limit_page skip_error (by_publishedAt (blogs d)) Hp Hk). }
  assert (All : In (card d b)
    (List.concat
       (map (fun p => map (card d) (firstn k (skipn ((p - 1) * k) l)))
          (seq 1 (List.length l))))).
  { rewrite map_pages. rewrite firstn_all2 by nia. now apply in_map. }
  apply in_concat in All as [cards [Hcards Hin]].
  apply in_map_iff in Hcards as [p [<- Hp]]. apply in_seq in Hp.
  exists p. split; [lia|]. rewrite Page by lia. exact Hin.
Qed.
End PagingFacts.

(** ** The token middleware *)

Lemma serve_send (s : nat) (b : Body) (d : DB) :
  serve (send s b) d = (mkOutcome (Some (mkResponse s b)) [], d).
Proof. unfold serve, send. cbn. now destruct d. Qed.

Lemma split_on_not_empty (sep : ascii) (s : string) : split_on sep s <> [].
Proof.
  destruct s as [|c r]; cbn; [discriminate|].
  destruct (Ascii.eqb c sep); [discriminate|].
  destruct (split_on sep r); discriminate.
Qed.

(** A field without the separator, followed by the separator, is the first
    field of the split. *)
Lemma split_on_field (sep : ascii) (w rest : string) :
  no_char sep w = true ->
  split_on sep (w ++ String sep rest) = w :: split_on sep rest.
Proof.
  unfold no_char. induction w as [|c r IH]; cbn.
  - intros _. now rewrite Ascii.eqb_refl.
  - intros H. apply andb_true_iff in H as [Hc Hr].
    apply negb_true_iff in Hc. rewrite Hc, (IH Hr). reflexivity.
Qed.

Lemma append_nothing (s : string) : (s ++ "")%string = s.
Proof. induction s as [|c r IH]; cbn; [reflexivity | now rewrite IH]. Qed.

Lemma split_on_whole (sep : ascii) (w : string) :
  no_char sep w = true -> split_on sep w = [w].
Proof.
  unfold no_char. induction w as [|c r IH]; cbn; [reflexivity|].
  intros H. apply andb_true_iff in H as [Hc Hr].
  apply negb_true_iff in Hc. now rewrite Hc, (IH Hr).
Qed.

Section TokenFacts.
Variable jwt_verify : string -> option ObjectId.

(** X21.  Behind [verifyJWT] a handler runs only for a caller whose header
    has a second field, counted between single spaces, that verifies, and
    it runs as that caller; every other request to [/create-blog],
    [/like-blog] and [/isliked-by-user] is answered with status 401 or 403
    and leaves the store as it is.  (A verifier refuses the empty token.) *)
Theorem protected_routes_need_a_token
  (authHeader : option string) (c : Call) (d : DB) :
  jwt_verify "" = None ->
  is_open c = false ->
  (exists header token user,
      authHeader = Some header
      /\ nth_error (split_on " " header) 1 = Some token
      /\ jwt_verify token = Some user
      /\ serve (mounted jwt_verify authHeader c) d =
         serve (route (request_as user c)) d)
  \/ (exists resp,
        (status resp = 401 \/ status resp = 403)
        /\ serve (mounted jwt_verify authHeader c) d =
           (mkOutcome (Some resp) [], d)).
Proof.
  intros Empty Closed.
  assert (K : forall next,
    (exists header token user,
        authHeader = Some header
        /\ nth_error (split_on " " header) 1 = Some token
        /\ jwt_verify token = Some user
        /\ verifyJWT jwt_verify authHeader next = next user)
    \/ (exists resp,
          (status resp = 401 \/ status resp = 403)
          /\ serve (verifyJWT jwt_verify authHeader next) d =
             (mkOutcome (Some resp) [], d))).
  { intros next. unfold verifyJWT, token_of.
    destruct authHeader as [[|c0 h]|].
    - rewrite Empty. right. eexists. rewrite serve_send. split; [|reflexivity].
      now right.
    - destruct (nth_error (split_on " " (String c0 h)) 1) as [token|] eqn:N.
      + destruct (jwt_verify token) as [user|] eqn:V.
        * left. exists (String c0 h), token, user. auto.
        * right. eexists. rewrite serve_send. split; [|reflexivity]. now right.
      + right. eexists. rewrite serve_send. split; [|reflexivity]. now left.
    - right. eexists. rewrite serve_send. split; [|reflexivity]. now left. }
  destruct c as [nanoid body|body|body|id]; try discriminate Closed;
    cbn [mounted request_as route];
    match goal with
    | |- context [verifyJWT jwt_verify authHeader ?next] =>
        destruct (K next) as [(h & t & u & E1 & E2 & E3 & E4)|R]
    end;
    try (right; exact R);
    left; exists h, t, u; rewrite E4; auto.
Qed.

(** X22.  The middleware reads the second field of the header and nothing
    else: the word in front of the token, which is never compared with
    ["Bearer"], and whatever follows a second space make no difference. *)
Theorem only_the_second_field_counts
  (scheme token : string) (junk : option string)
  (next : ObjectId -> Promise unit) :
  no_char " " scheme = true ->
  no_char " " token = true ->
  verifyJWT jwt_verify
    (Some (scheme ++ " " ++ token
           ++ match junk with Some j => " " ++ j | None => "" end)%string)
    next =
  match jwt_verify token with
  | None => send 403 (ErrorBody "Access token is invalid")
  | Some id => next id
  end.
Proof.
  intros Hs Ht.
  assert (T : token_of
    (Some (scheme ++ " " ++ token
           ++ match junk with Some j => " " ++ j | None => "" end)%string)
    = Some token).
  { assert (N : nth_error
        (split_on " "
           (scheme ++ " " ++ token
            ++ match junk with Some j => " " ++ j | None => "" end)%string) 1
        = Some token).
    { change (scheme ++ " " ++ ?x)%string with (scheme ++ String " " x)%string.
      rewrite (@split_on_field " " scheme _ Hs). cbn [nth_error].
      destruct junk as [j|].
      - change (token ++ " " ++ j)%string with (token ++ String " " j)%string.
        now rewrite (@split_on_field " " token _ Ht).
      - now rewrite append_nothing, (@split_on_whole " " token Ht). }
    unfold token_of. destruct scheme; exact N. }
  unfold verifyJWT. now rewrite T.
Qed.
End TokenFacts.

(** ** The connection to the store *)

Lemma connect_each_cached (n : nat) (p : Process) (handle : nat) :
  cachedDb p = Some handle ->
  connect_each n p = (repeat handle n, p).
Proof.
  intros C. induction n as [|n IH]; [reflexivity|].
  cbn [connect_each]. unfold connectToDatabase. rewrite C, IH. reflexivity.
Qed.

(** X23.  However many requests a process serves one after the other,
    [mongoose.connect] is called by the first of them only, and every
    request gets the handle that call returned; a process that has a handle
    already never connects again. *)
Theorem one_connection_serves_all (n : nat) (p : Process) :
  (cachedDb p = None ->
   connect_each (S n) p =
   (repeat (connects p) (S n),
    mkProcess (Some (connects p)) (S (connects p))))
  /\ (forall handle,
        cachedDb p = Some handle -> connect_each n p = (repeat handle n, p)).
Proof.
  split.
  - intros C. cbn [connect_each]. unfold connectToDatabase at 1. rewrite C.
    now rewrite (@connect_each_cached n
                   (mkProcess (Some (connects p)) (S (connects p)))
                   (connects p) eq_refl).
  - intros handle C. now apply connect_each_cached.
Qed.

(** ** The further theorems at work *)

Lemma newest_first_permutes (l : list Blog.t) : Permutation (newest_first l) l.
Proof. apply Permutation_sym, Permutation_rev. Qed.


Lemma tags_stay_lowercase_witness :
  tags_lowercase sample_db /\ tags_lowercase busy_db.
Proof.
  assert (H : tags_lowercase sample_db) by (repeat constructor).
  split; [exact H|]. exact (@tags_stay_lowercase sample_requests sample_db H).
Defined.

Lemma notifications_stay_addressed_witness :
  notifications_addressed sample_db
  /\ notifications_addressed
       (serve_all [PostLikeBlog 2 (LikeBlog.mk 10 true);
                   PostCreateBlog 1 "z3" publish_draft11] sample_db).
Proof.
  assert (H : notifications_addressed sample_db) by constructor.
  split; [exact H|].
  exact (@notifications_stay_addressed
           [PostLikeBlog 2 (LikeBlog.mk 10 true);
            PostCreateBlog 1 "z3" publish_draft11] sample_db H).
Defined.

Lemma blog_lists_stay_owned_witness :
  blog_lists_owned sample_db /\ blog_lists_owned busy_db.
Proof.
  assert (H : blog_lists_owned sample_db).
  { repeat constructor; cbn; tauto. }
  split; [exact H|]. exact (@blog_lists_stay_owned sample_requests sample_db H).
Defined.

Lemma blogs_are_kept_witness :
  findOne (has_blog_id "Notesy2") (blogs sample_db) = Some draft11
  /\ exists b',
       findOne (has_blog_id "Notesy2") (blogs busy_db) = Some b'
       /\ same_blog_later draft11 b'.
Proof.
  split; [reflexivity|].
  apply (@blogs_are_kept sample_requests sample_db "Notesy2" draft11).
  reflexivity.
Defined.

Lemma get_blog_shows_no_draft_unasked_witness :
  response (fst (serve (get_blog (GetBlog.mk "Notesy2" (Some true) None))
                   sample_db))
  = Some (mkResponse 200
            (BlogBody (mkPopulated draft11 (Some (User.personal_info bob)))))
  /\ (status (mkResponse 200
                (BlogBody (mkPopulated draft11 (Some (User.personal_info bob)))))
      = 500
      \/ exists shown,
           mkResponse 200
             (BlogBody (mkPopulated draft11 (Some (User.personal_info bob))))
           = mkResponse 200 (BlogBody shown)
           /\ In (doc shown) (blogs sample_db)
           /\ Blog.blog_id (doc shown) = "Notesy2"
           /\ (Blog.draft (doc shown) = true -> truthy (Some true) = true)).
Proof.
  split; [reflexivity|].
  apply (@get_blog_shows_no_draft_unasked sample_db
           (GetBlog.mk "Notesy2" (Some true) None)).
  reflexivity.
Defined.

Lemma get_blog_edit_changes_nothing_witness :
  loosely_equals (Some "edit") "edit" = true
  /\ snd (serve (get_blog (GetBlog.mk "Hello-Worldx1" None (Some "edit")))
            sample_db) = sample_db.
Proof.
  split; [reflexivity|].
  apply (@get_blog_edit_changes_nothing sample_db
           (GetBlog.mk "Hello-Worldx1" None (Some "edit"))).
  reflexivity.
Defined.

Lemma update_of_unknown_blog_is_silent_witness :
  findOne (has_blog_id "no-such-blog") (blogs sample_db) = None
  /\ serve
       (create_blog 2 "z3"
          (CreateBlog.mk "Notes" "n.png" (mkContent ["paragraph"]) ["misc"] "wip"
             (Some false) (Some "no-such-blog")))
       sample_db
     = (mkOutcome (Some (mkResponse 200 (IdBody "no-such-blog"))) [], sample_db).
Proof.
  split; [reflexivity|].
  apply (@update_of_unknown_blog_is_silent sample_db 2 "z3" "no-such-blog");
    reflexivity.
Defined.

Lemma update_ignores_the_caller_witness :
  Blog.author post10 = 1
  /\ serve (create_blog 2 "a"
              (CreateBlog.mk "Taken over" "" (mkContent []) [] "" None
                 (Some "Hello-Worldx1")))
       sample_db
     = serve (create_blog 1 "b"
                (CreateBlog.mk "Taken over" "" (mkContent []) [] "" None
                   (Some "Hello-Worldx1")))
         sample_db.
Proof.
  split; [reflexivity|].
  apply (@update_ignores_the_caller sample_db 2 1 "a" "b" "Hello-Worldx1").
  reflexivity.
Defined.

Lemma latest_pages_cover_the_published_witness :
  countDocuments is_published (blogs busy_db) <= 3 * 1
  /\ Permutation
       (List.concat
          (map (fun p => cards_of (latest_blogs newest_first sample_skip_error
                                      (Z.of_nat p) busy_db))
             (seq 1 1)))
       (map (card busy_db) (filter is_published (blogs busy_db))).
Proof.
  assert (H : countDocuments is_published (blogs busy_db) <= 3 * 1)
    by (vm_compute; lia).
  split; [exact H|].
  apply (@latest_pages_cover_the_published newest_first sample_skip_error
           newest_first_permutes 1 busy_db H).
Defined.

Lemma listings_show_no_draft_witness :
  List.length (cards_of (latest_blogs newest_first sample_skip_error 1 sample_db))
  <= 3.
Proof.
  apply (@listings_show_no_draft newest_first newest_first sample_skip_error
           newest_first_permutes newest_first_permutes 1 sample_db).
Defined.

Lemma search_with_a_criterion_shows_no_draft_witness :
  exists b,
    In b (blogs sample_db) /\ card sample_db post10 = card sample_db b
    /\ Blog.draft b = false
    /\ (forall tag,
          truthy_string (Some "intro") = Some tag ->
          In tag (Blog.tags b)
          /\ forall eliminated,
               None = Some eliminated -> Blog.blog_id b <> eliminated).
Proof.
  apply (@search_with_a_criterion_shows_no_draft newest_first sample_regexp
           sample_skip_error newest_first_permutes
           (SearchBlogs.mk (Some "intro") 1 None None None None)
           sample_db (card sample_db post10)).
  - discriminate.
  - left. reflexivity.
Defined.

Lemma latest_blogs_outside_the_pages_witness :
  latest_blogs newest_first sample_skip_error 0 sample_db =
  mkListing 500 (ListingError "Skip value must be non-negative")
  /\ latest_blogs newest_first sample_skip_error 2 sample_db =
     mkListing 200 (BlogsBody []).
Proof.
  split.
  - apply (@latest_blogs_outside_the_pages newest_first sample_skip_error
             newest_first_permutes 0 sample_db). lia.
  - apply (@latest_blogs_outside_the_pages newest_first sample_skip_error
             newest_first_permutes 2 sample_db); [lia | vm_compute; discriminate].
Defined.

Lemma search_count_includes_the_eliminated_witness :
  totalDocs_of
    (search_blogs_count sample_regexp
       (SearchBlogsCount.mk (Some "intro") None None) sample_db)
  = Some
      (List.length
         (cards_of
            (search_blogs newest_first sample_regexp sample_skip_error
               (SearchBlogs.mk (Some "intro") 1 None None (Some 5)
                  (Some "Hello-Worldx1")) sample_db))
       + countDocuments
           (fun b => tagged "intro" b && is_published b
                     && negb (not_eliminated (Some "Hello-Worldx1") b))
           (blogs sample_db)).
Proof.
  apply (@search_count_includes_the_eliminated newest_first sample_regexp
           sample_skip_error newest_first_permutes sample_db (Some "intro")
           None None (Some "Hello-Worldx1") "intro" 5);
    [reflexivity | lia | vm_compute; lia].
Defined.

Lemma search_for_a_capital_tag_finds_nothing_witness :
  tags_lowercase sample_db
  /\ cards_of
       (search_blogs newest_first sample_regexp sample_skip_error
          (SearchBlogs.mk (Some "Intro") 1 None None None None) sample_db) = [].
Proof.
  assert (H : tags_lowercase sample_db) by (repeat constructor).
  split; [exact H|].
  apply (@search_for_a_capital_tag_finds_nothing newest_first sample_regexp
           sample_skip_error newest_first_permutes sample_db
           (SearchBlogs.mk (Some "Intro") 1 None None None None) "Intro" H);
    reflexivity.
Defined.

Lemma search_without_criterion_lists_every_blog_witness :
  Blog.draft draft11 = true
  /\ exists p : nat,
       1 <= p
       /\ In (card sample_db draft11)
            (cards_of
               (search_blogs newest_first sample_regexp sample_skip_error
                  (SearchBlogs.mk None (Z.of_nat p) (Some "") None (Some 1) None)
                  sample_db)).
Proof.
  split; [reflexivity|].
  apply (@search_without_criterion_lists_every_blog newest_first sample_regexp
           sample_skip_error newest_first_permutes sample_db None (Some "")
           (Some 1) None draft11); [reflexivity | reflexivity |].
  right. left. reflexivity.
Defined.

Lemma protected_routes_need_a_token_witness :
  sample_verify "" = None
  /\ ((exists header token user,
          Some "Bearer bobs-token" = Some header
          /\ nth_error (split_on " " header) 1 = Some token
          /\ sample_verify token = Some user
          /\ serve (mounted sample_verify (Some "Bearer bobs-token")
                      (CallLikeBlog (LikeBlog.mk 10 true))) sample_db =
             serve (route (request_as user (CallLikeBlog (LikeBlog.mk 10 true))))
               sample_db)
      \/ (exists resp,
            (status resp = 401 \/ status resp = 403)
            /\ serve (mounted sample_verify (Some "Bearer bobs-token")
                        (CallLikeBlog (LikeBlog.mk 10 true))) sample_db =
               (mkOutcome (Some resp) [], sample_db))).
Proof.
  split; [reflexivity|].
  apply (@protected_routes_need_a_token sample_verify (Some "Bearer bobs-token")
           (CallLikeBlog (LikeBlog.mk 10 true)) sample_db);
    reflexivity.
Defined.

Lemma only_the_second_field_counts_witness :
  verifyJWT sample_verify (Some "Basic bobs-token and more")
    (fun user => isliked_by_user user 10)
  = isliked_by_user 2 10.
Proof.
  apply (@only_the_second_field_counts sample_verify "Basic" "bobs-token"
           (Some "and more") (fun user => isliked_by_user user 10));
    reflexivity.
Defined.

Lemma one_connection_serves_all_witness :
  connect_each 3 (mkProcess None 0) = ([0; 0; 0], mkProcess (Some 0) 1).
Proof.
  apply (@one_connection_serves_all 2 (mkProcess None 0)). reflexivity.
Defined.

(** ** What the patterns of [/signup] accept *)

Lemma is_nil_iff (A : Type) (l : list A) : is_nil l = true <-> l = [].
Proof. destruct l; cbn; split; congruence. Qed.

Lemma test_iff (r : Regex) (s : string) :
  test r s = true <-> In [] (remainders r (list_ascii_of_string s)).
Proof.
  unfold test. rewrite existsb_exists. split.
  - intros [x [Hin Hx]]. apply is_nil_iff in Hx. now subst x.
  - intros H. exists []. now split.
Qed.

(** The remainders of a starred class: what follows a run of its
    characters. *)
Lemma star_class_fuel (p : ascii -> bool) (fuel : nat) :
  forall s t : list ascii,
  In t (star (remainders (Class p)) fuel s) <->
  exists pre,
    s = pre ++ t /\ forallb p pre = true /\ List.length pre <= fuel.
Proof.
  induction fuel as [|f IH]; intros s t.
  - cbn. split.
    + intros [<-|[]]. exists []. now repeat split.
    + intros [pre (E & _ & L)]. destruct pre; [now left | cbn in L; lia].
  - cbn [star]. destruct s as [|c s'].
    + cbn. split.
      * intros [<-|[]]. exists []. repeat split; cbn; lia.
      * intros [pre (E & _ & _)]. left. symmetry in E.
        apply app_eq_nil in E as [_ E]. now subst t.
    + cbn [remainders]. destruct (p c) eqn:Pc.
      * cbn [filter List.length]. rewrite (proj2 (Nat.ltb_lt _ _)) by lia.
        cbn [flat_map]. rewrite app_nil_r. cbn [In]. rewrite IH. split.
        -- intros [<-|[pre (E & F & L)]].
           ++ exists []. repeat split; cbn; lia.
           ++ exists (c :: pre). subst s'. cbn. rewrite Pc, F.
              repeat split; lia.
        -- intros [pre (E & F & L)]. destruct pre as [|c' pre].
           ++ left. exact E.
           ++ right. cbn in E, F, L. injection E as <- ->.
              apply andb_true_iff in F as [_ F]. exists pre.
              repeat split; [exact F | lia].
      * cbn. split.
        -- intros [<-|[]]. exists []. repeat split; cbn; lia.
        -- intros [pre (E & F & _)]. destruct pre as [|c' pre]; [now left|].
           cbn in E, F. injection E as <- _. rewrite Pc in F. discriminate.
Qed.

Lemma star_class (p : ascii -> bool) (s t : list ascii) :
  In t (remainders (Star (Class p)) s) <->
  exists pre, s = pre ++ t /\ forallb p pre = true.
Proof.
  change (remainders (Star (Class p)) s)
    with (star (remainders (Class p)) (List.length s) s).
  rewrite star_class_fuel. split.
  - intros [pre (E & F & _)]. eauto.
  - intros [pre (E & F)]. exists pre. repeat split; auto.
    subst s. rewrite length_app. lia.
Qed.

Lemma times_class (p : ascii -> bool) (n : nat) :
  forall s t : list ascii,
  In t (remainders (times n (Class p)) s) <->
  exists pre,
    s = pre ++ t /\ forallb p pre = true /\ List.length pre = n.
Proof.
  induction n as [|n IH]; intros s t.
  - cbn. split.
    + intros [<-|[]]. exists []. now repeat split.
    + intros [pre (E & _ & L)]. destruct pre; [now left | discriminate].
  - cbn [times remainders]. rewrite in_flat_map. split.
    + intros [m [Hm Ht]]. destruct s as [|c s']; [contradiction|].
      destruct (p c) eqn:Pc; [|contradiction]. destruct Hm as [<-|[]].
      apply IH in Ht as [pre (E & F & L)]. exists (c :: pre). subst s'.
      cbn. rewrite Pc, F, L. now repeat split.
    + intros [pre (E & F & L)]. destruct pre as [|c pre]; [discriminate|].
      cbn in E, F, L. apply andb_true_iff in F as [Pc F]. subst s.
      exists (pre ++ t). rewrite Pc. split; [now left|].
      apply IH. exists pre. repeat split; [exact F | lia].
Qed.

Lemma upto_class (p : ascii -> bool) (n : nat) :
  forall s t : list ascii,
  In t (remainders (upto n (Class p)) s) <->
  exists pre,
    s = pre ++ t /\ forallb p pre = true /\ List.length pre <= n.
Proof.
  induction n as [|n IH]; intros s t.
  - cbn. split.
    + intros [<-|[]]. exists []. now repeat split.
    + intros [pre (E & _ & L)]. destruct pre; [now left | cbn in L; lia].
  - cbn [upto opt remainders]. rewrite in_app_iff, in_flat_map. split.
    + intros [[m [Hm Ht]]|[<-|[]]].
      * destruct s as [|c s']; [contradiction|].
        destruct (p c) eqn:Pc; [|contradiction]. destruct Hm as [<-|[]].
        apply IH in Ht as [pre (E & F & L)]. exists (c :: pre). subst s'.
        cbn. rewrite Pc, F. repeat split. lia.
      * exists []. repeat split. cbn. lia.
    + intros [pre (E & F & L)]. destruct pre as [|c pre].
      * right. left. exact E.
      * left. cbn in E, F, L. apply andb_true_iff in F as [Pc F]. subst s.
        exists (pre ++ t). rewrite Pc. split; [now left|].
        apply IH. exists pre. repeat split; [exact F | lia].
Qed.

(** A string as a whole against [c{m,n}]. *)
Lemma from_to_class (p : ascii -> bool) (m n : nat) (s : list ascii) :
  m <= n ->
  In [] (remainders (from_to m n (Class p)) s) <->
  m <= List.length s <= n /\ forallb p s = true.
Proof.
  intros Hmn. unfold from_to. cbn [remainders]. rewrite in_flat_map. split.
  - intros [mid [H1 H2]]. apply times_class in H1 as [pre (E & F & L)].
    apply upto_class in H2 as [pre' (E' & F' & L')].
    rewrite app_nil_r in E'. subst mid s.
    rewrite length_app, forallb_app, F, F'. split; [lia | reflexivity].
  - intros [L F]. exists (skipn m s). split.
    + apply times_class. exists (firstn m s).
      rewrite firstn_skipn. repeat split.
      * rewrite <- (firstn_skipn m s), forallb_app in F.
        now apply andb_true_iff in F as [F _].
      * apply firstn_length_le. lia.
    + apply upto_class. exists (skipn m s). rewrite app_nil_r.
      repeat split.
      * rewrite <- (firstn_skipn m s), forallb_app in F.
        now apply andb_true_iff in F as [_ F].
      * rewrite length_skipn. lia.
Qed.

Lemma remainders_seq (a b : Regex) (s : list ascii) :
  remainders (Seq a b) s = flat_map (remainders b) (remainders a s).
Proof. reflexivity. Qed.

Lemma remainders_ahead (a : Regex) (s : list ascii) :
  remainders (Ahead a) s = if is_nil (remainders a s) then [] else [s].
Proof. cbn [remainders]. now destruct (remainders a s). Qed.

Lemma in_remainders_seq (a b : Regex) (s t : list ascii) :
  In t (remainders (Seq a b) s) <->
  exists mid, In mid (remainders a s) /\ In t (remainders b mid).
Proof. rewrite remainders_seq. apply in_flat_map. Qed.

Lemma in_remainders_class (p : ascii -> bool) (s t : list ascii) :
  In t (remainders (Class p) s) <-> exists c, s = c :: t /\ p c = true.
Proof.
  destruct s as [|c s']; cbn.
  - split; [tauto | intros [c [E _]]; discriminate].
  - destruct (p c) eqn:Pc; cbn.
    + split.
      * intros [<-|[]]. eauto.
      * intros [c' [[= <- <-] _]]. now left.
    + split; [tauto|]. intros [c' [[= <- <-] Pc']]. congruence.
Qed.

(** [.*c] at the head of a string without line breaks matches when the
    string has a character of the class. *)
Lemma any_then_class (p : ascii -> bool) (s : list ascii) :
  forallb is_any s = true ->
  is_nil (remainders (Seq (Star (Class is_any)) (Class p)) s) =
  negb (existsb p s).
Proof.
  intros Any. destruct (existsb p s) eqn:E; cbn [negb].
  - apply existsb_exists in E as [c [Hin Pc]].
    apply in_split in Hin as [pre [post ->]].
    assert (H : In post
      (remainders (Seq (Star (Class is_any)) (Class p)) (pre ++ c :: post))).
    { apply in_remainders_seq. exists (c :: post). split.
      - apply star_class. exists pre. split; [reflexivity|].
        rewrite forallb_app in Any. now apply andb_true_iff in Any as [Any _].
      - apply in_remainders_class. eauto. }
    now destruct (remainders _ _).
  - destruct (remainders (Seq (Star (Class is_any)) (Class p)) s)
      as [|t rest] eqn:F; [reflexivity|].
    assert (H : In t (remainders (Seq (Star (Class is_any)) (Class p)) s))
      by (rewrite F; now left).
    apply in_remainders_seq in H as [mid [H1 H2]].
    apply star_class in H1 as [pre [-> _]].
    apply in_remainders_class in H2 as [c [-> Pc]].
    rewrite existsb_app in E. cbn in E. rewrite Pc in E.
    rewrite orb_true_r in E. discriminate.
Qed.

(** [(?=.*c)] in front of a pattern, on a string without line breaks. *)
Lemma ahead_any_class (p : ascii -> bool) (b : Regex) (s t : list ascii) :
  forallb is_any s = true ->
  In t (remainders (Seq (Ahead (Seq (Star (Class is_any)) (Class p))) b) s) <->
  existsb p s = true /\ In t (remainders b s).
Proof.
  intros Any. rewrite in_remainders_seq.
  setoid_rewrite remainders_ahead. rewrite (any_then_class p s Any).
  destruct (existsb p s); cbn.
  - split.
    + intros [mid [[<-|[]] H]]. now split.
    + intros [_ H]. exists s. split; [now left | exact H].
  - split; [intros [mid [[] _]] | intros [E _]; discriminate].
Qed.

(** What [(?=.*c)] lets pass is the string it was given. *)
Lemma ahead_passes_whole (a b : Regex) (s t : list ascii) :
  In t (remainders (Seq (Ahead a) b) s) -> In t (remainders b s).
Proof.
  rewrite in_remainders_seq, remainders_ahead.
  intros [mid [H1 H2]]. destruct (is_nil (remainders a s)); [contradiction|].
  destruct H1 as [<-|[]]. exact H2.
Qed.

(** X24.  [passwordRegex] accepts exactly the passwords of 6 to 20
    characters that hold no line break and have a digit, a small letter
    and a capital letter. *)
Theorem passwordRegex_is_the_policy (password : string) :
  test passwordRegex password = password_policy password.
Proof.
  apply eq_true_iff_eq. rewrite test_iff. unfold password_policy.
  set (l := list_ascii_of_string password).
  unfold passwordRegex.
  rewrite !andb_true_iff, Nat.leb_le, Nat.leb_le.
  split.
  - intros H.
    assert (W : In [] (remainders (from_to 6 20 (Class is_any)) l))
      by (repeat apply ahead_passes_whole in H; exact H).
    apply from_to_class in W as [L Any]; [|lia].
    apply (ahead_any_class _ _ _ _ Any) in H as [D H].
    apply (ahead_any_class _ _ _ _ Any) in H as [Lo H].
    apply (ahead_any_class _ _ _ _ Any) in H as [U _].
    repeat split; try assumption; lia.
  - intros [[[[[L1 L2] Any] D] Lo] U].
    apply (ahead_any_class _ _ _ _ Any). split; [exact D|].
    apply (ahead_any_class _ _ _ _ Any). split; [exact Lo|].
    apply (ahead_any_class _ _ _ _ Any). split; [exact U|].
    apply from_to_class; [lia|]. split; [lia | exact Any].
Qed.

Lemma string_of_list_app (a b : list ascii) :
  string_of_list_ascii (a ++ b) =
  (string_of_list_ascii a ++ string_of_list_ascii b)%string.
Proof. induction a as [|c a IH]; cbn; [reflexivity | now rewrite IH]. Qed.

Lemma string_forallb_of_list (p : ascii -> bool) (l : list ascii) :
  string_forallb p (string_of_list_ascii l) = forallb p l.
Proof. induction l as [|c l IH]; cbn; [reflexivity | now rewrite IH]. Qed.

Lemma string_length_of_list (l : list ascii) :
  String.length (string_of_list_ascii l) = List.length l.
Proof. induction l as [|c l IH]; cbn; [reflexivity | now rewrite IH]. Qed.

Section Consumed.
Variable P : ascii -> bool.

(** What a step consumes satisfies [P]. *)
Definition consumes (step : list ascii -> list (list ascii)) : Prop :=
  forall s t, In t (step s) -> exists pre, s = pre ++ t /\ forallb P pre = true.

Lemma star_consumes (step : list ascii -> list (list ascii)) :
  consumes step -> forall fuel, consumes (star step fuel).
Proof.
  intros Hs. induction fuel as [|f IH]; intros s t; cbn [star].
  - intros [<-|[]]. exists []. now split.
  - intros [<-|H]; [exists []; now split|].
    apply in_flat_map in H as [m [Hm Ht]]. apply filter_In in Hm as [Hm _].
    destruct (Hs _ _ Hm) as [pre1 [-> F1]]. destruct (IH _ _ Ht) as [pre2 [-> F2]].
    exists (pre1 ++ pre2). rewrite <- app_assoc, forallb_app, F1, F2. now split.
Qed.

(** What is left after the iterations is the start, or what the step left
    of a tail of the start. *)
Lemma star_last (step : list ascii -> list (list ascii)) :
  consumes step ->
  forall fuel s t,
  In t (star step fuel s) ->
  t = s
  \/ exists pre m, s = pre ++ m /\ forallb P pre = true /\ In t (step m).
Proof.
  intros Hs. induction fuel as [|f IH]; intros s t; cbn [star].
  - intros [<-|[]]. now left.
  - intros [<-|H]; [now left|]. right.
    apply in_flat_map in H as [m [Hm Ht]]. apply filter_In in Hm as [Hm _].
    destruct (IH _ _ Ht) as [->|(pre & m' & -> & F & Hstep)].
    + exists [], s. now repeat split.
    + destruct (Hs _ _ Hm) as [pre1 [-> F1]].
      exists (pre1 ++ pre), m'. rewrite <- app_assoc, forallb_app, F1, F.
      now repeat split.
Qed.

Lemma remainders_consumes (r : Regex) : within P r -> consumes (remainders r).
Proof.
  induction 1 as [p Hp| |a b _ IHa _ IHb|a b _ IHa _ IHb|a _ IHa|a];
    intros s t Ht.
  - apply in_remainders_class in Ht as [c [-> Pc]]. exists [c]. cbn.
    rewrite (Hp c Pc). now split.
  - destruct Ht as [<-|[]]. exists []. now split.
  - apply in_remainders_seq in Ht as [mid [H1 H2]].
    destruct (IHa _ _ H1) as [pre1 [-> F1]]. destruct (IHb _ _ H2) as [pre2 [-> F2]].
    exists (pre1 ++ pre2). rewrite <- app_assoc, forallb_app, F1, F2. now split.
  - cbn [remainders] in Ht. apply in_app_iff in Ht as [Ht|Ht]; eauto.
  - change (remainders (Star a) s) with (star (remainders a) (List.length s) s)
      in Ht.
    exact (star_consumes IHa _ _ _ Ht).
  - rewrite remainders_ahead in Ht. destruct (is_nil (remainders a s));
      [contradiction|]. destruct Ht as [<-|[]]. exists []. now split.
Qed.
End Consumed.

Lemma name_char_facts (c : ascii) :
  implb (is_word c) (is_name_char c)
  && implb (is_dot_or_hyphen c) (is_name_char c)
  && implb (is_dot c) (is_name_char c)
  && implb (is_name_char c) (negb (Ascii.eqb c "@")) = true.
Proof. each_character c. Qed.

Lemma is_at_only (c : ascii) : is_at c = true -> c = "@"%char.
Proof.
  destruct c as [[] [] [] [] [] [] [] []]; intros H;
    try reflexivity; vm_compute in H; discriminate H.
Qed.

Lemma is_dot_only (c : ascii) : is_dot c = true -> c = "."%char.
Proof.
  destruct c as [[] [] [] [] [] [] [] []]; intros H;
    try reflexivity; vm_compute in H; discriminate H.
Qed.

Lemma word_is_name_char (c : ascii) : is_word c = true -> is_name_char c = true.
Proof.
  intros H. pose proof (name_char_facts c) as F. rewrite H in F.
  now destruct (is_name_char c).
Qed.

Lemma separator_is_name_char (c : ascii) :
  is_dot_or_hyphen c = true -> is_name_char c = true.
Proof.
  intros H. unfold is_name_char. now rewrite H, orb_true_r.
Qed.

Lemma dot_is_name_char (c : ascii) : is_dot c = true -> is_name_char c = true.
Proof.
  intros H. apply separator_is_name_char. unfold is_dot_or_hyphen. now rewrite H.
Qed.

(** A run of word characters, [\w+], takes at least one of them. *)
Lemma plus_word_parts (s t : list ascii) :
  In t (remainders (plus (Class is_word)) s) ->
  exists c pre,
    s = (c :: pre) ++ t /\ forallb is_name_char (c :: pre) = true.
Proof.
  unfold plus. intros H. apply in_remainders_seq in H as [mid [H1 H2]].
  apply in_remainders_class in H1 as [c [-> Wc]].
  apply star_class in H2 as [pre [-> F]].
  exists c, pre. split; [reflexivity|]. cbn.
  rewrite (word_is_name_char _ Wc). cbn.
  rewrite forallb_forall in *. intros x Hx. apply word_is_name_char, F, Hx.
Qed.

Lemma name_tail_within :
  within is_name_char
    (Star (Seq (opt (Class is_dot_or_hyphen)) (plus (Class is_word)))).
Proof.
  unfold plus, opt.
  repeat (constructor;
          try exact word_is_name_char; try exact separator_is_name_char).
Qed.

Lemma tld_within :
  within is_name_char (Seq (Class is_dot) (from_to 2 3 (Class is_word))).
Proof.
  unfold from_to. cbn [times upto Nat.sub]. unfold opt.
  repeat (constructor;
          try exact word_is_name_char; try exact dot_is_name_char).
Qed.

(** An address the pattern accepts, in parts. *)
Lemma accepted_email_parts (email : string) :
  test emailRegex email = true ->
  exists (local host tld : list ascii),
    list_ascii_of_string email = local ++ "@"%char :: host ++ "."%char :: tld
    /\ local <> []
    /\ forallb is_name_char local = true
    /\ host <> []
    /\ forallb is_name_char host = true
    /\ forallb is_word tld = true
    /\ 2 <= List.length tld <= 3.
Proof.
  rewrite test_iff. set (l := list_ascii_of_string email). unfold emailRegex.
  intros H.
  apply in_remainders_seq in H as [m1 [HA H]].
  apply in_remainders_seq in H as [m2 [HB H]].
  apply in_remainders_seq in H as [m3 [HAt H]].
  apply in_remainders_seq in H as [m4 [HC H]].
  apply in_remainders_seq in H as [m5 [HD HE]].
  destruct (plus_word_parts _ _ HA) as (c & preA & EA & FA).
  destruct (remainders_consumes name_tail_within _ _ HB) as [preB [EB FB]].
  apply in_remainders_class in HAt as [a [EAt At]]. apply is_at_only in At.
  destruct (plus_word_parts _ _ HC) as (c' & preC & EC & FC).
  destruct (remainders_consumes name_tail_within _ _ HD) as [preD [ED FD]].
  (* the last dot and what follows it *)
  assert (Last : exists pre m,
    m5 = pre ++ m /\ forallb is_name_char pre = true
    /\ In [] (remainders (Seq (Class is_dot) (from_to 2 3 (Class is_word))) m)).
  { unfold plus in HE. apply in_remainders_seq in HE as [mid [H1 H2]].
    change (remainders (Star ?x) mid)
      with (star (remainders x) (List.length mid) mid) in H2.
    destruct (star_last (remainders_consumes tld_within) _ _ _ H2)
      as [<-|(pre & m & -> & F & Hm)].
    - exists [], m5. now repeat split.
    - destruct (remainders_consumes tld_within _ _ H1) as [pre1 [-> F1]].
      exists (pre1 ++ pre), m. rewrite <- app_assoc, forallb_app, F1, F.
      now repeat split. }
  destruct Last as (preE & m & EE & FE & Hm).
  apply in_remainders_seq in Hm as [w [Hdot Hw]].
  apply in_remainders_class in Hdot as [dt [-> Dot]]. apply is_dot_only in Dot.
  apply from_to_class in Hw as [Lw Fw]; [|lia].
  exists ((c :: preA) ++ preB), ((c' :: preC) ++ preD ++ preE), w.
  subst. repeat split.
  - fold l. rewrite EA. cbn [app]. now rewrite <- !app_assoc.
  - discriminate.
  - now rewrite forallb_app, FA, FB.
  - discriminate.
  - now rewrite !forallb_app, FC, FD, FE.
  - exact Fw.
  - lia.
  - lia.
Qed.

Lemma name_chars_hold_no_at (l : list ascii) :
  forallb is_name_char l = true -> no_char "@" (string_of_list_ascii l) = true.
Proof.
  unfold no_char. rewrite string_forallb_of_list, !forallb_forall.
  intros H c Hc. specialize (H c Hc). pose proof (name_char_facts c) as F.
  rewrite H in F. rewrite !andb_true_iff in F. now destruct F as [_ F].
Qed.

Lemma string_of_list_not_empty (l : list ascii) :
  l <> [] -> string_of_list_ascii l <> EmptyString.
Proof. destruct l; [congruence | discriminate]. Qed.

(** X25.  An address that [emailRegex] accepts is a local part, an [@], a
    host, a dot and an ending: local part and host are not empty and made of
    word characters, dots and hyphens, so the address has exactly one [@];
    the ending is two or three word characters. *)
Theorem emailRegex_accepts_only_addresses (email : string) :
  test emailRegex email = true ->
  exists local host tld : string,
    email = (local ++ "@" ++ host ++ "." ++ tld)%string
    /\ local <> EmptyString
    /\ host <> EmptyString
    /\ string_forallb is_name_char local = true
    /\ string_forallb is_name_char host = true
    /\ string_forallb is_word tld = true
    /\ 2 <= String.length tld <= 3.
Proof.
  intros H.
  destruct (accepted_email_parts email H)
    as (local & host & tld & E & Nl & Fl & Nh & Fh & Ft & Lt).
  exists (string_of_list_ascii local), (string_of_list_ascii host),
    (string_of_list_ascii tld).
  rewrite !string_forallb_of_list, string_length_of_list.
  repeat split; try assumption; try (now apply string_of_list_not_empty);
    try lia.
  rewrite <- (string_of_list_ascii_of_string email), E.
  rewrite string_of_list_app. cbn [string_of_list_ascii].
  now rewrite string_of_list_app.
Qed.

(** X26.  For an address that [emailRegex] accepts, [generateUsername]
    starts from the local part, which is not empty and has no [@] in it:
    the username is the local part when no user carries it, and the local
    part with a hyphen and the [nanoid] behind it otherwise, without a
    second look at the store; so it is a name already in use only when both
    names are. *)
Theorem generateUsername_of_an_address (nanoid5 email : string) (d : DB) :
  test emailRegex email = true ->
  exists local rest : string,
    email = (local ++ "@" ++ rest)%string
    /\ local <> EmptyString
    /\ string_forallb is_name_char local = true
    /\ (findOne (has_username local) (users d) = None ->
        generateUsername nanoid5 email d = local)
    /\ (findOne (has_username local) (users d) <> None ->
        generateUsername nanoid5 email d = (local ++ "-" ++ nanoid5)%string)
    /\ (findOne (has_username (generateUsername nanoid5 email d)) (users d)
          <> None ->
        findOne (has_username local) (users d) <> None
        /\ findOne (has_username (local ++ "-" ++ nanoid5)%string) (users d)
             <> None).
Proof.
  intros H.
  destruct (accepted_email_parts email H)
    as (local & host & tld & E & Nl & Fl & _).
  set (rest := host ++ "."%char :: tld) in E.
  assert (Es : email =
    (string_of_list_ascii local ++ String "@" (string_of_list_ascii rest))%string).
  { rewrite <- (string_of_list_ascii_of_string email), E.
    now rewrite string_of_list_app. }
  assert (Hd : hd EmptyString (split_on "@" email) = string_of_list_ascii local).
  { rewrite Es at 1.
    now rewrite (@split_on_field "@" _ _ (name_chars_hold_no_at _ Fl)). }
  exists (string_of_list_ascii local), (string_of_list_ascii rest).
  unfold generateUsername. rewrite Hd, string_forallb_of_list.
  split; [exact Es|]. split; [now apply string_of_list_not_empty|].
  split; [exact Fl|].
  destruct (findOne (has_username (string_of_list_ascii local)) (users d))
    as [u|] eqn:F.
  - split; [discriminate|]. split; [reflexivity|].
    intros T. split; [discriminate | exact T].
  - split; [reflexivity|]. split; [congruence|].
    intros T. congruence.
Qed.

(** X27.  [/signup] lets a request past its checks exactly when the full
    name has at least three characters and the two patterns accept the
    address and the password; the check for an empty address never decides,
    as [emailRegex] refuses the empty address too. *)
Theorem signup_checks (r : Signup.req) :
  signup_rejects r = None <->
  3 <= String.length (Signup.fullname r)
  /\ test emailRegex (Signup.email r) = true
  /\ test passwordRegex (Signup.password r) = true.
Proof.
  unfold signup_rejects.
  destruct (Nat.ltb (String.length (Signup.fullname r)) 3) eqn:L.
  - apply Nat.ltb_lt in L. split; [discriminate | lia].
  - apply Nat.ltb_ge in L.
    destruct (test emailRegex (Signup.email r)) eqn:E.
    + assert (N : no_length (Signup.email r) = false).
      { destruct (accepted_email_parts _ E) as (lo & h & t & Eq & Nl & _).
        destruct (Signup.email r); [|reflexivity].
        destruct lo; [congruence | discriminate Eq]. }
      rewrite N. cbn [negb].
      destruct (test passwordRegex (Signup.password r)); cbn [negb].
      * split; [intros _; now repeat split | reflexivity].
      * split; [discriminate | intros (_ & _ & F); discriminate F].
    + destruct (no_length (Signup.email r)); cbn [negb];
        split; try discriminate; intros (_ & F & _); discriminate.
Qed.

(** ** The patterns on examples *)

Example emailRegex_examples :
  map (test emailRegex)
    ["ann@ml.org"; "al.b-2@m.ex.org"; "ann@ml.o"; "ann@ml.orga";
     "ann@@ml.org"; ".ann@ml.org"; "a..lee@ml.org"; "ann ml.org"; ""]
  = [true; true; false; false; false; false; false; false; false].
Proof. vm_compute. reflexivity. Qed.

Example passwordRegex_examples :
  map (test passwordRegex)
    ["Abc123"; "abc123"; "ABC123"; "Abcdef"; "Ab1"; "Abcdefghijklmnopqrs1";
     "Abcdefghijklmnopqrst1"]
  = [true; false; false; false; false; true; false].
Proof. vm_compute. reflexivity. Qed.

Lemma emailRegex_accepts_only_addresses_witness :
  test emailRegex "al.b-2@m.ex.org" = true
  /\ exists local host tld : string,
       "al.b-2@m.ex.org" = (local ++ "@" ++ host ++ "." ++ tld)%string
       /\ local <> EmptyString
       /\ host <> EmptyString
       /\ string_forallb is_name_char local = true
       /\ string_forallb is_name_char host = true
       /\ string_forallb is_word tld = true
       /\ 2 <= String.length tld <= 3.
Proof.
  assert (H : test emailRegex "al.b-2@m.ex.org" = true)
    by (vm_compute; reflexivity).
  split; [exact H|].
  exact (@emailRegex_accepts_only_addresses "al.b-2@m.ex.org" H).
Defined.

Lemma generateUsername_of_an_address_witness :
  test emailRegex "alice@mail.org" = true
  /\ generateUsername "x7Kq2" "alice@mail.org" sample_db = "alice-x7Kq2"
  /\ exists local rest : string,
       "alice@mail.org" = (local ++ "@" ++ rest)%string
       /\ local <> EmptyString
       /\ string_forallb is_name_char local = true
       /\ (findOne (has_username local) (users sample_db) = None ->
           generateUsername "x7Kq2" "alice@mail.org" sample_db = local)
       /\ (findOne (has_username local) (users sample_db) <> None ->
           generateUsername "x7Kq2" "alice@mail.org" sample_db =
           (local ++ "-" ++ "x7Kq2")%string)
       /\ (findOne (has_username
                      (generateUsername "x7Kq2" "alice@mail.org" sample_db))
             (users sample_db) <> None ->
           findOne (has_username local) (users sample_db) <> None
           /\ findOne (has_username (local ++ "-" ++ "x7Kq2")%string)
                (users sample_db) <> None).
Proof.
  assert (H : test emailRegex "alice@mail.org" = true)
    by (vm_compute; reflexivity).
  split; [exact H|]. split; [reflexivity|].
  exact (@generateUsername_of_an_address "x7Kq2" "alice@mail.org" sample_db H).
Defined.

Lemma signup_checks_witness :
  signup_rejects (Signup.mk "Ann Lee" "ann@mail.org" "Abc123") = None
  /\ 3 <= String.length "Ann Lee"
  /\ test emailRegex "ann@mail.org" = true
  /\ test passwordRegex "Abc123" = true.
Proof.
  assert (H : signup_rejects (Signup.mk "Ann Lee" "ann@mail.org" "Abc123") = None)
    by (vm_compute; reflexivity).
  split; [exact H|].
  exact (proj1 (@signup_checks (Signup.mk "Ann Lee" "ann@mail.org" "Abc123")) H).
Defined.
